(** * The pull script of cursor-rules: model and properties

    This development embeds [src/bin/rules-pull.js] (the [pull] command)
    and states, against that model, the properties the specification gives
    for the merge of a remote rules file with the local one.

    Conventions of the embedding.
    - A text (file content, as read with the utf8 encoding) is a [string];
      JavaScript's [===] on texts is [String.eqb].
    - The file system is a finite map from paths to contents.  Directories are
      not stored: removing the scratch directory removes every path below it.
    - Everything the script asks of the outside world (git, the clock, the
      three-way-merge package, the user at the prompt, the editor) is a field
      of [Env].
    - The script is a computation in a state monad with two ways of leaving:
      a JavaScript exception ([Thrown]) and [process.exit] ([Exited]).  The
      state holds the files, the chronological list of observable effects and
      [options.mergeStrategy], the one option the script assigns to.
    - Reading or copying a missing file raises; writing never does.  The
      three-way-merge package either raises or answers with the [result] and
      [conflict] that the script destructures.  The changes of the spinner's
      text are not recorded, its messages are.
    - The properties that speak of the way a run ends are stated on a second
      model of the same script, [Failing.run], where a path can be a
      directory and any call to the file system or to the prompt can be
      refused.  When nothing is refused it runs as the first model does
      ([run_without_failures]).

    The file has the model first ([run] is the whole script), then the
    notions the properties are stated with, then the proofs.  The properties
    of the specification are at the end of [Section Properties], each with
    the identifier of the claim it settles, followed by concrete runs. *)

From Stdlib Require Import ZArith String Ascii.
From stdpp Require Import gmap strings list fin_maps pretty.

Open Scope string_scope.
Open Scope list_scope.

(** ** Texts produced by the script *)

(** Line 141: the content written by the [simple] strategy. *)
Definition mergedContent (remoteContent localContent : string) : string :=
  remoteContent +:+ "

# Local additions below
# ========================================

" +:+ localContent.

(** Line 201: the content written when the user picks "Concatenate". *)
Definition concatContent (remoteContent localContent : string) : string :=
  remoteContent +:+ "

# Local additions below
# ========================================

" +:+ localContent.

(** Lines 269-276. *)
Definition generateConflictMarkers (remoteContent localContent : string) : string :=
  "<<<<<<< REMOTE
" +:+ remoteContent +:+ "
=======
" +:+ localContent +:+ "
>>>>>>> LOCAL
".

(** Lines 278-299. *)
Definition generateManualMergeFile (remoteContent localContent : string) : string :=
  "# MANUAL MERGE REQUIRED
# ===================================================
# Instructions:
# 1. Below you'll find both the remote and local versions
# 2. Edit this file to create the merged version you want
# 3. Save and close when you're done
# ===================================================

# REMOTE VERSION
# ===================================================
" +:+ remoteContent +:+ "

# LOCAL VERSION
# ===================================================
" +:+ localContent +:+ "

# YOUR MERGED VERSION BELOW (edit as needed)
# ===================================================

".

(** ** Options, environment and observable effects *)

(** The options of the command line that the script reads ([program.opts()]).
    [branch], [owner] and [repo] only feed the git commands, which are part of
    the environment. *)
Record Options := {
  path : string;
  dest : string;
  token : option string;
  backup : bool;
  mergeStrategy : string;
  force : bool;
  verbose : bool;
  private : bool
}.

(** A call into the outside world either raises with a message or returns. *)
Inductive Answer (A : Type) :=
| Raises (message : string)
| Returns (a : A).
Arguments Raises {A} message.
Arguments Returns {A} a.

(** A region where both sides changed (section 3 of the specification). *)
Record ConflictRegion := {
  remoteText : string;
  localText : string
}.

(** What the script takes from the answer of the three-way-merge package
    (line 151): [result] and [conflict]. *)
Record MergeResult := {
  result : string;
  conflict : bool
}.

(** The four choices of the prompt (lines 181-186). *)
Inductive Action := remote | local | concat | manual.

Inductive Platform := win32 | darwin | otherPlatform.

Record Env := {
  nodeTooOld : bool;              (* semver.lt(process.version, engines.node) *)
  GITHUB_TOKEN : option string;   (* process.env.GITHUB_TOKEN *)
  gitClone : Answer unit;         (* execSync(`git clone ...`) *)
  gitCheckout : Answer unit;      (* execSync(`cd ... && git checkout ...`) *)
  remoteFile : option string;     (* options.path in the checkout, if present *)
  destDirExists : bool;           (* fs.existsSync(path.dirname(options.dest)) *)
  now : Z;                        (* Date.now() *)
  threeWayMerge : string -> string -> string -> Answer MergeResult;
  action : Action;                (* the answer to the first prompt *)
  platform : Platform;            (* process.platform *)
  editor : string -> Answer string;
    (* opening the scratch file in the editor and asking for confirmation:
       an exception, or the content the user left in the file *)
  confirmed : bool                (* the answer to the second prompt *)
}.

(** The messages of the script, one constructor per message in the source. *)
Inductive Message :=
| NodeTooOld
| TokenRequired
| InvalidStrategy (strategy : string)
| RemoteNotFound (p : string)
| CreatedDirectory
| CreatedBackup (backupPath : string)
| Overwrote
| CreatedNew
| UpToDate
| MergedSimple
| ConflictsDetected
| WroteConflictMarkers
| ResolveManually
| MergedSmart
| SmartMergeFailed (message : string)
| KeptRemote
| KeptLocal
| Concatenated
| OpeningEditor
| ManualMergeCompleted
| ManualMergeCancelled
| ErrorOpeningEditor (message : string)
| Pulled
| ErrorPulling (message : string)
| UnexpectedError (message : string)
| ErrorObject (message : string).   (* console.error(error), when verbose *)

Inductive Event :=
| consoleError (m : Message)
| spinnerInfo (m : Message)
| spinnerWarn (m : Message)
| spinnerSucceed (m : Message)
| spinnerFail (m : Message)
| execGitClone
| execGitCheckout
| copyFile (src dst : string)
| writeFile (file content : string)
| callThreeWayMerge (ancestor remoteContent localContent : string)
| createPatch (localContent remoteContent : string)
| promptAction
| execEditor (command file : string)
| promptConfirm.

(** ** The monad of the script *)

Record World := {
  files : gmap string string;
  log : list Event;
  strategy : string       (* options.mergeStrategy, assigned at line 167 *)
}.

Inductive Res (A : Type) :=
| Ok (a : A)
| Thrown (message : string)
| Exited (code : Z).
Arguments Ok {A} a.
Arguments Thrown {A} message.
Arguments Exited {A} code.

Definition M (A : Type) : Type := World -> Res A * World.

Definition ret {A} (a : A) : M A := fun w => (Ok a, w).

Definition bind {A B} (m : M A) (k : A -> M B) : M B :=
  fun w =>
    match m w with
    | (Ok a, w') => k a w'
    | (Thrown e, w') => (Thrown e, w')
    | (Exited c, w') => (Exited c, w')
    end.

Notation "x <- m ;; k" := (bind m (fun x => k))
  (at level 100, m at next level, right associativity).
Notation "m ;; k" := (bind m (fun _ => k))
  (at level 100, right associativity).

Definition throw {A} (e : string) : M A := fun w => (Thrown e, w).

(** [process.exit(code)]: nothing runs afterwards, not even [finally]. *)
Definition exit {A} (code : Z) : M A := fun w => (Exited code, w).

(** [try { m } catch (error) { h error }] *)
Definition try_catch {A} (m : M A) (h : string -> M A) : M A :=
  fun w =>
    match m w with
    | (Thrown e, w') => h e w'
    | r => r
    end.

(** [try { m } finally { f }] *)
Definition try_finally {A} (m : M A) (f : M unit) : M A :=
  fun w =>
    match m w with
    | (Exited c, w') => (Exited c, w')
    | (r, w') =>
        match f w' with
        | (Ok _, w'') => (r, w'')
        | (Thrown e, w'') => (Thrown e, w'')
        | (Exited c, w'') => (Exited c, w'')
        end
    end.

Definition emit (e : Event) : M unit :=
  fun w => (Ok tt, {| files := files w; log := log w ++ [e]; strategy := strategy w |}).

Definition getStrategy : M string := fun w => (Ok (strategy w), w).

Definition setStrategy (s : string) : M unit :=
  fun w => (Ok tt, {| files := files w; log := log w; strategy := s |}).

Definition call {A} (a : Answer A) : M A :=
  match a with
  | Raises e => throw e
  | Returns x => ret x
  end.

(** *** The file system *)

Definition existsSync (p : string) : M bool :=
  fun w => (Ok (bool_decide (is_Some (files w !! p))), w).

Definition readFileSync (p : string) : M string :=
  fun w =>
    match files w !! p with
    | Some c => (Ok c, w)
    | None => (Thrown ("ENOENT: no such file or directory, open '" +:+ p +:+ "'"), w)
    end.

Definition writeFileSync (p content : string) : M unit :=
  fun w =>
    (Ok tt, {| files := <[p := content]> (files w);
               log := log w ++ [writeFile p content];
               strategy := strategy w |}).

Definition copyFileSync (src dst : string) : M unit :=
  fun w =>
    match files w !! src with
    | Some c =>
        (Ok tt, {| files := <[dst := c]> (files w);
                   log := log w ++ [copyFile src dst];
                   strategy := strategy w |})
    | None => (Thrown ("ENOENT: no such file or directory, copyfile '" +:+ src +:+ "'"), w)
    end.

(** The user saves [content] in [p] from the editor: the file changes, the
    script does nothing. *)
Definition userSaves (p content : string) : M unit :=
  fun w =>
    (Ok tt, {| files := <[p := content]> (files w);
               log := log w;
               strategy := strategy w |}).

(** [p] is the directory [dir] or lies below it. *)
Definition under (dir p : string) : bool :=
  String.eqb p dir || String.prefix (dir +:+ "/") p.

(** [fs.rmSync(dir, { recursive: true, force: true })] *)
Definition rmSync (dir : string) : M unit :=
  fun w =>
    (Ok tt, {| files := filter (fun kv => under dir kv.1 = false) (files w);
               log := log w;
               strategy := strategy w |}).

(** ** The script *)

(** JavaScript truthiness of an optional string: [undefined] and the empty
    string are falsy. *)
Definition truthy (s : option string) : bool :=
  match s with
  | Some v => negb (String.eqb v "")
  | None => false
  end.

(** [a || b] on optional strings. *)
Definition orElse (a b : option string) : option string :=
  if truthy a then a else b.

(** Line 50: [['simple', 'smart', 'manual'].includes(s)] *)
Definition recognized (s : string) : bool :=
  existsb (String.eqb s) ["simple"; "smart"; "manual"].

(** Lines 216-217. *)
Definition editorCmd (p : Platform) : string :=
  match p with
  | win32 => "notepad"
  | darwin => "open -e"
  | otherPlatform => "xdg-open"
  end.

Section Script.

Variable options : Options.
Variable env : Env.

(** Line 56: [path.join(process.cwd(), '.cursor-rules-temp')]. *)
Variable tempDir : string.

(** Lines 262-267. *)
Definition cleanup : M unit := rmSync tempDir.

(** Line 207: [path.join(tempDir, 'manual_merge.mdc')] *)
Definition tempFilePath : string := tempDir +:+ "/manual_merge.mdc".

(** Line 113. *)
Definition backupPath : string :=
  dest options +:+ ".backup." +:+ pretty (now env).

(** Lines 205-239: the choice "Edit manually". *)
Definition editManually (remoteContent localContent : string) : M unit :=
  let manualMergeContent := generateManualMergeFile remoteContent localContent in
  writeFileSync tempFilePath manualMergeContent;;
  emit (spinnerInfo OpeningEditor);;
  try_catch
    (emit (execEditor (editorCmd (platform env)) tempFilePath);;
     edited <- call (editor env manualMergeContent);;
     userSaves tempFilePath edited;;
     emit promptConfirm;;
     if confirmed env then
       editedContent <- readFileSync tempFilePath;;
       writeFileSync (dest options) editedContent;;
       emit (spinnerSucceed ManualMergeCompleted)
     else
       emit (spinnerFail ManualMergeCancelled))
    (fun error => emit (spinnerFail (ErrorOpeningEditor error))).

(** Lines 191-240: [switch (action)]. *)
Definition processSelection (a : Action) (remoteContent localContent : string) : M unit :=
  match a with
  | remote =>
      writeFileSync (dest options) remoteContent;;
      emit (spinnerSucceed KeptRemote)
  | local =>
      emit (spinnerSucceed KeptLocal)
  | concat =>
      writeFileSync (dest options) (concatContent remoteContent localContent);;
      emit (spinnerSucceed Concatenated)
  | manual =>
      editManually remoteContent localContent
  end.

(** Lines 170-241: the diff, the prompt and the user's choice. *)
Definition manualMerge (remoteContent localContent : string) : M unit :=
  emit (createPatch localContent remoteContent);;
  emit promptAction;;
  processSelection (action env) remoteContent localContent.

(** Lines 147-168: the [try] of the smart strategy. *)
Definition smartMerge (remoteContent localContent : string) : M unit :=
  try_catch
    (let commonAncestor := "" in
     emit (callThreeWayMerge commonAncestor remoteContent localContent);;
     r <- call (threeWayMerge env commonAncestor remoteContent localContent);;
     if conflict r then
       emit (spinnerWarn ConflictsDetected);;
       let conflictContent := generateConflictMarkers remoteContent localContent in
       writeFileSync (dest options) conflictContent;;
       emit (spinnerInfo WroteConflictMarkers);;
       emit (spinnerInfo ResolveManually)
     else
       writeFileSync (dest options) (result r);;
       emit (spinnerSucceed MergedSmart))
    (fun error =>
       emit (spinnerWarn (SmartMergeFailed error));;
       setStrategy "manual").

(** Lines 138-247: [switch (options.mergeStrategy)]. *)
Definition mergeByStrategy (remoteContent localContent : string) : M unit :=
  s <- getStrategy;;
  if String.eqb s "simple" then
    writeFileSync (dest options) (mergedContent remoteContent localContent);;
    emit (spinnerSucceed MergedSimple)
  else if String.eqb s "smart" then
    smartMerge remoteContent localContent;;
    s' <- getStrategy;;
    if String.eqb s' "manual" then manualMerge remoteContent localContent
    else ret tt
  else if String.eqb s "manual" then
    (* line 245: "This case is handled within the smart merge fallback above" *)
    ret tt
  else
    ret tt.

(** Lines 102-118: read the local file and back it up.  Gives
    [localFileExists] and [localContent]. *)
Definition backupLocal : M (bool * string) :=
  localFileExists <- existsSync (dest options);;
  if localFileExists : bool then
    localContent <- readFileSync (dest options);;
    (if backup options then
       copyFileSync (dest options) backupPath;;
       emit (spinnerInfo (CreatedBackup backupPath))
     else ret tt);;
    ret (true, localContent)
  else ret (false, "").

(** Lines 120-250: overwrite, leave alone or merge. *)
Definition handleScenarios (remoteContent : string) (localFileExists : bool)
    (localContent : string) : M unit :=
  if negb localFileExists || force options then
    writeFileSync (dest options) remoteContent;;
    emit (spinnerSucceed (if localFileExists then Overwrote else CreatedNew));;
    emit (spinnerSucceed Pulled)
  else if String.eqb localContent remoteContent then
    emit (spinnerSucceed UpToDate);;
    cleanup
    (* return *)
  else
    mergeByStrategy remoteContent localContent;;
    emit (spinnerSucceed Pulled).

(** Lines 66-250: the body of the [try] of [main]. *)
Definition pull : M unit :=
  emit execGitClone;;
  call (gitClone env);;
  emit execGitCheckout;;
  call (gitCheckout env);;
  match remoteFile env with
  | None =>
      emit (spinnerFail (RemoteNotFound (path options)));;
      exit 1
  | Some remoteContent =>
      (if destDirExists env then ret tt
       else emit (spinnerInfo CreatedDirectory));;
      l <- backupLocal;;
      handleScenarios remoteContent l.1 l.2
  end.

(** [if (options.verbose) console.error(error)] *)
Definition reportError (error : string) : M unit :=
  if verbose options then emit (consoleError (ErrorObject error)) else ret tt.

(** Lines 66 and 251-259: [try { body } catch (error) { ... } finally
    { cleanup() }]. *)
Definition tryMain (body : M unit) : M unit :=
  try_finally
    (try_catch body
       (fun error =>
          emit (spinnerFail (ErrorPulling error));;
          reportError error;;
          exit 1))
    cleanup.

(** Lines 65-260. *)
Definition main : M unit := tryMain pull.

(** Lines 302-309: [m.catch(error => ...)]. *)
Definition mainCatch (m : M unit) : M unit :=
  try_catch m
    (fun error =>
       emit (spinnerFail (UnexpectedError error));;
       reportError error;;
       cleanup;;
       exit 1).

(** Lines 49-53. *)
Definition validateStrategy : M unit :=
  s <- getStrategy;;
  if negb (recognized s) then
    emit (consoleError (InvalidStrategy s));;
    exit 1
  else ret tt.

(** The whole script, top to bottom. *)
Definition script : M unit :=
  (if nodeTooOld env then emit (consoleError NodeTooOld);; exit 1 else ret tt);;
  (if private options && negb (truthy (orElse (token options) (GITHUB_TOKEN env)))
   then emit (consoleError TokenRequired);; exit 1 else ret tt);;
  validateStrategy;;
  rmSync tempDir;;
  mainCatch main.

(** Running the script on a file system. *)
Definition run (fs : gmap string string) : Res unit * World :=
  script {| files := fs; log := []; strategy := mergeStrategy options |}.

(** *** Stages of a run *)

(** The script gets as far as reading the remote file [remoteContent]: the
    version and token checks pass and git succeeds. *)
Record Fetched (remoteContent : string) : Prop := {
  nodeOk : nodeTooOld env = false;
  tokenOk : private options
            && negb (truthy (orElse (token options) (GITHUB_TOKEN env))) = false;
  cloneOk : gitClone env = Returns tt;
  checkoutOk : gitCheckout env = Returns tt;
  remoteOk : remoteFile env = Some remoteContent
}.

(** The world once the local file, of content [localContent], is read and
    backed up. *)
Definition backedUp (fs : gmap string string) (localContent : string) : World :=
  {| files := (if backup options then <[backupPath := localContent]> else id)
                (filter (fun kv => under tempDir kv.1 = false) fs);
     log := [execGitClone; execGitCheckout]
            ++ (if destDirExists env then [] else [spinnerInfo CreatedDirectory])
            ++ (if backup options
                then [copyFile (dest options) backupPath;
                      spinnerInfo (CreatedBackup backupPath)]
                else []);
     strategy := mergeStrategy options |}.

(** The script reaches the merge of [remoteContent] with the existing local
    file of content [localContent]. *)
Record Merging (fs : gmap string string) (remoteContent localContent : string)
  : Prop := {
  fetched : Fetched remoteContent;
  localOk : fs !! dest options = Some localContent;
  destOutside : under tempDir (dest options) = false;
  noForce : force options = false;
  differ : localContent <> remoteContent
}.

End Script.

(** ** Notions used to state the properties *)

(** The separator comment of the concatenation. *)
Definition separator : string := "

# Local additions below
# ========================================

".

(** [text.split('\n')]: the lines of a text. *)
Fixpoint lines (s : string) : list string :=
  match s with
  | EmptyString => [""]
  | String c s' =>
      if Ascii.eqb c "010"%char then "" :: lines s'
      else match lines s' with
           | l :: ls => String c l :: ls
           | [] => [String c ""]
           end
  end.

Definition openMarker : string := "<<<<<<< REMOTE".
Definition middleMarker : string := "=======".
Definition closeMarker : string := ">>>>>>> LOCAL".

(** Where a reader of conflict markers stands: outside a block, in its remote
    part (after the opening line) or in its local part (after the middle
    line). *)
Inductive Scan := Outside | InRemote | InLocal.

(** The number of complete blocks (an opening line, later a middle line, later
    a closing line) met when reading the lines from state [st]. *)
Fixpoint countBlocks (st : Scan) (ls : list string) : nat :=
  match ls with
  | [] => 0
  | l :: ls' =>
      match st with
      | Outside =>
          if String.eqb l openMarker then countBlocks InRemote ls'
          else countBlocks Outside ls'
      | InRemote =>
          if String.eqb l middleMarker then countBlocks InLocal ls'
          else countBlocks InRemote ls'
      | InLocal =>
          if String.eqb l closeMarker then S (countBlocks Outside ls')
          else countBlocks InLocal ls'
      end
  end.

(** The number of well-formed conflict blocks of a text. *)
Definition conflictBlocks (text : string) : nat :=
  countBlocks Outside (lines text).

(** No line of the text is one of the three marker lines. *)
Definition markerFree (text : string) : Prop :=
  Forall (fun l => l <> openMarker /\ l <> middleMarker /\ l <> closeMarker)
         (lines text).

(** [s] occurs in [text] as a contiguous substring. *)
Definition occursIn (s text : string) : Prop :=
  exists before after, text = before +:+ s +:+ after.

(** The steps of a merge: calling the package, reporting a conflict, showing
    the differences, asking the user, opening the editor, writing a file. *)
Definition isMergeWork (e : Event) : bool :=
  match e with
  | writeFile _ _ | callThreeWayMerge _ _ _ | createPatch _ _
  | promptAction | execEditor _ _ | promptConfirm
  | spinnerWarn ConflictsDetected => true
  | _ => false
  end.

(** The events that [main] can add to the log: no error of the option checks,
    and calls to the package from the empty ancestor only. *)
Definition mainEvent (e : Event) : Prop :=
  match e with
  | consoleError (ErrorObject _) => True
  | consoleError _ => False
  | callThreeWayMerge ancestor _ _ => ancestor = ""
  | _ => True
  end.

(** The run reported a conflict (line 154). *)
Definition reportsConflict (w : World) : Prop :=
  In (spinnerWarn ConflictsDetected) (log w).

(** The conflict regions of a merge without a base, in the words of the
    specification (section 3): the one region is the whole-file divergence.
    The script never has a base (line 150), so these are the regions of
    every conflict it reports. *)
Definition specConflictRegions (remoteContent localContent : string)
  : list ConflictRegion :=
  [ {| remoteText := remoteContent; localText := localContent |} ].

(** The heading above which the manual-merge document shows both versions and
    below which the user is invited to write. *)
Definition sentinel : string := "# YOUR MERGED VERSION BELOW (edit as needed)
# ===================================================
".

(** The convention of the specification (section 4.2) for reading back an
    edited manual-merge document, stated here to compare the script with it:
    everything after the first occurrence of the sentinel heading is the
    final text; without the heading the document is malformed ([None]).  The
    script has no such parser. *)
Definition specParseManualMerge (document : string) : option string :=
  match String.index 0 sentinel document with
  | Some n =>
      let start := (n + String.length sentinel)%nat in
      Some (String.substring start (String.length document - start) document)
  | None => None
  end.

(** What a computation adds to the log: [m] only appends events, and each of
    them satisfies [P]. *)
Definition appends (P : Event -> Prop) {A} (m : M A) : Prop :=
  forall w, exists l, log (m w).2 = (log w ++ l)%list /\ Forall P l.

(** ** Examples *)

(** A small three-way merge, line by line: a line changed on one side only
    takes that side, a line changed differently on both sides is a conflict
    region (the merged text then keeps the remote line).  Lines are paired by
    position.  It stands for the three-way-merge package in the examples. *)
Fixpoint mergeLines (bs rs ls : list string) : list string * list ConflictRegion :=
  match rs, ls with
  | r :: rs', l :: ls' =>
      let (out, regions) := mergeLines (tail bs) rs' ls' in
      if String.eqb r l then (r :: out, regions)
      else if bool_decide (head bs = Some r) then (l :: out, regions)
      else if bool_decide (head bs = Some l) then (r :: out, regions)
      else (r :: out, {| remoteText := r; localText := l |} :: regions)
  | _, _ => (rs ++ ls, [])
  end.

Definition positionalMerge (base remoteContent localContent : string)
  : Answer MergeResult :=
  let (out, regions) :=
    mergeLines (lines base) (lines remoteContent) (lines localContent) in
  Returns {| result := String.concat (String "010" "") out;
             conflict := match regions with [] => false | _ => true end |}.

(** A package that cannot be called. *)
Definition brokenMerge (base remoteContent localContent : string)
  : Answer MergeResult :=
  Raises "threeWayMerge is not a function".

(** The defaults of the command line, with a given strategy. *)
Definition exampleOptions (s : string) : Options :=
  {| path := "rules/reactrouter/standard/always-follow.mdc";
     dest := ".cursor/rules/always-follow.mdc";
     token := None;
     backup := true;
     mergeStrategy := s;
     force := false;
     verbose := false;
     private := false |}.

Definition exampleTempDir : string := "/project/.cursor-rules-temp".

(** A run where git succeeds and the remote file holds [remoteContent]. *)
Definition exampleEnv (remoteContent : string)
    (merge : string -> string -> string -> Answer MergeResult)
    (a : Action) (edit : string -> Answer string) : Env :=
  {| nodeTooOld := false;
     GITHUB_TOKEN := None;
     gitClone := Returns tt;
     gitCheckout := Returns tt;
     remoteFile := Some remoteContent;
     destDirExists := true;
     now := 1718000000000;
     threeWayMerge := merge;
     action := a;
     platform := otherPlatform;
     editor := edit;
     confirmed := true |}.

(** A project whose rules file holds [localContent]. *)
Definition exampleFiles (localContent : string) : gmap string string :=
  {[ ".cursor/rules/always-follow.mdc" := localContent ]}.

Definition noEdit (content : string) : Answer string := Returns content.

Definition twoChangesRemote : string := "A
X
C
P
E".

Definition twoChangesLocal : string := "A
Z
C
Q
E".

(** A remote text with marker lines of its own. *)
Definition markedRemote : string := "x
=======
y
>>>>>>> LOCAL
<<<<<<< REMOTE
z".

Definition scenarioBase : string := "A
B
C".

Definition scenarioRemote : string := "A
X
C".

Definition scenarioLocal : string := "A
B
Y".

Definition scenarioMerged : string := "A
X
Y".

Definition exampleWorld : World :=
  {| files := exampleFiles "L"; log := []; strategy := "manual" |}.

(** ** Notions for the whole run *)

(** The script passes its checks, git succeeds and the remote file is
    there. *)
Definition fetches (options : Options) (env : Env) : bool :=
  negb (nodeTooOld env)
  && negb (private options
           && negb (truthy (orElse (token options) (GITHUB_TOKEN env))))
  && recognized (mergeStrategy options)
  && match gitClone env with Returns _ => true | Raises _ => false end
  && match gitCheckout env with Returns _ => true | Raises _ => false end
  && match remoteFile env with Some _ => true | None => false end.

(** The two worlds have the same files, but for the paths in [Q]. *)
Definition sameFilesExcept (Q : string -> bool) (w w' : World) : Prop :=
  forall p, Q p = false -> files w' !! p = files w !! p.

(** [m] takes every world to one related to it by [R]. *)
Definition keeps (R : World -> World -> Prop) {A} (m : M A) : Prop :=
  forall w, R w (m w).2.

(** The paths the merge may write: the destination and the scratch
    directory. *)
Definition mergePaths (options : Options) (tempDir : string) (p : string) : bool :=
  String.eqb p (dest options) || under tempDir p.

(** The paths a run may write: those, and the backup when backups are on. *)
Definition runPaths (options : Options) (env : Env) (tempDir : string)
    (p : string) : bool :=
  mergePaths options tempDir p
  || (backup options && String.eqb p (backupPath options env)).

(** [lines.join('\n')] *)
Definition unlines (ls : list string) : string :=
  String.concat (String "010" "") ls.

(** ** The command dispatcher, [src/index.js] *)

(** What [commands[command]] gives: a path of the table, a property that
    every object inherits (a function or an object, never a string), or
    [undefined]. *)
Inductive Property :=
| Own (value : string)
| Inherited
| Undefined.

(** The properties of [Object.prototype]. *)
Definition inheritedKeys : list string :=
  ["constructor"; "hasOwnProperty"; "isPrototypeOf"; "propertyIsEnumerable";
   "toLocaleString"; "toString"; "valueOf"; "__proto__";
   "__defineGetter__"; "__defineSetter__"; "__lookupGetter__";
   "__lookupSetter__"].

(** Lines 17-20 of [src/index.js], read with [commands[command]]. *)
Definition commands (command : string) : Property :=
  if String.eqb command "pull" then Own "./bin/rules-pull.js"
  else if String.eqb command "push" then Own "./bin/rules-push.js"
  else if existsb (String.eqb command) inheritedKeys then Inherited
  else Undefined.

(** [path.join(__dirname, relative)] for the two paths of the table;
    [__dirname] is absolute and has no trailing separator. *)
Definition joinDirname (dirname relative : string) : string :=
  match relative with
  | String "." (String "/" rest) => dirname +:+ "/" +:+ rest
  | _ => dirname +:+ "/" +:+ relative
  end.

Inductive DispatchError :=
| pathNotAString                 (* the TypeError of [path.join] *)
| scriptRaised (message : string).

Inductive DispatchEvent :=
| printUsage
| setArgv (argv : list string)
| requireScript (scriptPath : string)
| printError (e : DispatchError).

(** [src/index.js].  [process.argv] is [execPath :: argvTail]; [load] is
    [require(scriptPath)] with the new [process.argv]: the script returns,
    raises or ends the process.  The result is the exit status, if the
    process is ended here or by the script, and what was done. *)
Definition dispatch (dirname execPath : string) (argvTail : list string)
    (load : string -> list string -> Res unit) : option Z * list DispatchEvent :=
  let args := drop 1 argvTail in
  let command := head args in
  let remainingArgs := drop 1 args in
  let property :=
    match command with
    | Some c => if String.eqb c "" then Undefined else commands c
    | None => Undefined
    end in
  match property with
  | Undefined => (Some 1%Z, [printUsage])
  | Inherited => (Some 1%Z, [printError pathNotAString])
  | Own relative =>
      let scriptPath := joinDirname dirname relative in
      let argv := execPath :: scriptPath :: remainingArgs in
      match load scriptPath argv with
      | Ok _ => (None, [setArgv argv; requireScript scriptPath])
      | Thrown message =>
          (Some 1%Z, [setArgv argv; requireScript scriptPath;
                    printError (scriptRaised message)])
      | Exited code => (Some code, [setArgv argv; requireScript scriptPath])
      end
  end.

(** The events of a run that writes no file. *)
Definition writesNothing (e : Event) : Prop :=
  match e with
  | writeFile _ _ | copyFile _ _ => False
  | _ => True
  end.

(** The defaults with [--private] and a given [--token]. *)
Definition privateOptions (t : option string) : Options :=
  {| path := "rules/reactrouter/standard/always-follow.mdc";
     dest := ".cursor/rules/always-follow.mdc";
     token := t;
     backup := true;
     mergeStrategy := "smart";
     force := false;
     verbose := false;
     private := true |}.

(** The defaults with [--force] and a given strategy. *)
Definition forcedOptions (s : string) : Options :=
  {| path := "rules/reactrouter/standard/always-follow.mdc";
     dest := ".cursor/rules/always-follow.mdc";
     token := None;
     backup := true;
     mergeStrategy := s;
     force := true;
     verbose := false;
     private := false |}.

(** ** The script on a machine where calls can fail

    The model above keeps to the texts that the script computes and to
    where it puts them: its file system holds files only and answers every
    call, and the prompts are answered.  Below is the same script, call for
    call, on a machine where a path can be a directory and where any call
    to the file system or to the prompt can be refused (a file that cannot
    be written, an empty path, a full disk, a directory that cannot be
    removed, a terminal that is closed).  Whether a call is refused may
    depend on everything that happened before it.  [Failing.run] is the
    whole script; the properties that speak of the way a run ends are
    stated on it. *)

(** The calls that can be refused. *)
Inductive Request :=
| fsRead (p : string)           (* fs.readFileSync(p, 'utf8') *)
| fsWrite (p : string)          (* fs.writeFileSync(p, content, 'utf8') *)
| fsCopy (src dst : string)     (* fs.copyFileSync(src, dst) *)
| fsRemove (dir : string)       (* fs.rmSync(dir, { recursive: true, force: true }) *)
| fsMkdir (dir : string)        (* fs.mkdirSync(dir, { recursive: true }) *)
| fsMkdirOf (p : string)        (* fs.mkdirSync(path.dirname(p), { recursive: true }) *)
| askAction                     (* inquirer.prompt, lines 177-187 *)
| askConfirmed.                 (* inquirer.prompt, lines 221-226 *)

(** A refused call raises an exception of message [reason].  A write or a
    copy that fails may have opened its target already, which then holds
    [partial]; a removal that fails may have removed the paths in
    [removed] already. *)
Record Refusal := {
  reason : string;
  partial : option string;
  removed : string -> bool
}.

Record Host := {
  directory : string -> bool;                      (* the path is a directory *)
  refuses : World -> Request -> option Refusal     (* the call fails now *)
}.

Module Failing.

Section Script.

Variable options : Options.
Variable env : Env.
Variable tempDir : string.
Variable host : Host.

(** *** The file system *)

Definition existsSync (p : string) : M bool :=
  fun w => (Ok (directory host p || bool_decide (is_Some (files w !! p))), w).

Definition readFileSync (p : string) : M string :=
  fun w =>
    match refuses host w (fsRead p) with
    | Some r => (Thrown (reason r), w)
    | None =>
        if directory host p then
          (Thrown "EISDIR: illegal operation on a directory, read", w)
        else
          match files w !! p with
          | Some c => (Ok c, w)
          | None =>
              (Thrown ("ENOENT: no such file or directory, open '" +:+ p +:+ "'"), w)
          end
    end.

(** What a refused write or copy leaves behind. *)
Definition damaged (p : string) (r : Refusal) (w : World) : World :=
  match partial r with
  | Some c => {| files := <[p := c]> (files w); log := log w; strategy := strategy w |}
  | None => w
  end.

Definition writeFileSync (p content : string) : M unit :=
  fun w =>
    match refuses host w (fsWrite p) with
    | Some r => (Thrown (reason r), damaged p r w)
    | None =>
        if directory host p then
          (Thrown ("EISDIR: illegal operation on a directory, open '" +:+ p +:+ "'"), w)
        else
          (Ok tt, {| files := <[p := content]> (files w);
                     log := log w ++ [writeFile p content];
                     strategy := strategy w |})
    end.

Definition copyFileSync (src dst : string) : M unit :=
  fun w =>
    match refuses host w (fsCopy src dst) with
    | Some r => (Thrown (reason r), damaged dst r w)
    | None =>
        if directory host src || directory host dst then
          (Thrown ("EISDIR: illegal operation on a directory, copyfile '"
                   +:+ src +:+ "'"), w)
        else
          match files w !! src with
          | Some c =>
              (Ok tt, {| files := <[dst := c]> (files w);
                         log := log w ++ [copyFile src dst];
                         strategy := strategy w |})
          | None =>
              (Thrown ("ENOENT: no such file or directory, copyfile '"
                       +:+ src +:+ "'"), w)
          end
    end.

(** Removing a directory that is not there does nothing; whether the
    scratch directory is there is not recorded, so the call is always
    made. *)
Definition rmSync (dir : string) : M unit :=
  fun w =>
    match refuses host w (fsRemove dir) with
    | Some r =>
        (Thrown (reason r),
         {| files := filter (fun kv => negb (under dir kv.1 && removed r kv.1))
                       (files w);
            log := log w;
            strategy := strategy w |})
    | None =>
        (Ok tt, {| files := filter (fun kv => under dir kv.1 = false) (files w);
                   log := log w;
                   strategy := strategy w |})
    end.

(** A call that changes no file of the model: it is refused or it is not. *)
Definition attempt (c : Request) : M unit :=
  fun w =>
    match refuses host w c with
    | Some r => (Thrown (reason r), w)
    | None => (Ok tt, w)
    end.

(** *** The script *)

(** Lines 262-267. *)
Definition cleanup : M unit := rmSync tempDir.

(** Line 83: [path.join(tempDir, options.path)], for a path in normal
    form. *)
Definition remoteFilePath : string := tempDir +:+ "/" +:+ path options.

(** Lines 205-239: the choice "Edit manually". *)
Definition editManually (remoteContent localContent : string) : M unit :=
  let manualMergeContent := generateManualMergeFile remoteContent localContent in
  writeFileSync (tempFilePath tempDir) manualMergeContent;;
  emit (spinnerInfo OpeningEditor);;
  try_catch
    (emit (execEditor (editorCmd (platform env)) (tempFilePath tempDir));;
     edited <- call (editor env manualMergeContent);;
     userSaves (tempFilePath tempDir) edited;;
     emit promptConfirm;;
     attempt askConfirmed;;
     if confirmed env then
       editedContent <- readFileSync (tempFilePath tempDir);;
       writeFileSync (dest options) editedContent;;
       emit (spinnerSucceed ManualMergeCompleted)
     else
       emit (spinnerFail ManualMergeCancelled))
    (fun error => emit (spinnerFail (ErrorOpeningEditor error))).

(** Lines 191-240: [switch (action)]. *)
Definition processSelection (a : Action) (remoteContent localContent : string) : M unit :=
  match a with
  | remote =>
      writeFileSync (dest options) remoteContent;;
      emit (spinnerSucceed KeptRemote)
  | local =>
      emit (spinnerSucceed KeptLocal)
  | concat =>
      writeFileSync (dest options) (concatContent remoteContent localContent);;
      emit (spinnerSucceed Concatenated)
  | manual =>
      editManually remoteContent localContent
  end.

(** Lines 170-241: the diff, the prompt and the user's choice. *)
Definition manualMerge (remoteContent localContent : string) : M unit :=
  emit (createPatch localContent remoteContent);;
  emit promptAction;;
  attempt askAction;;
  processSelection (action env) remoteContent localContent.

(** Lines 147-168: the [try] of the smart strategy. *)
Definition smartMerge (remoteContent localContent : string) : M unit :=
  try_catch
    (let commonAncestor := "" in
     emit (callThreeWayMerge commonAncestor remoteContent localContent);;
     r <- call (threeWayMerge env commonAncestor remoteContent localContent);;
     if conflict r then
       emit (spinnerWarn ConflictsDetected);;
       let conflictContent := generateConflictMarkers remoteContent localContent in
       writeFileSync (dest options) conflictContent;;
       emit (spinnerInfo WroteConflictMarkers);;
       emit (spinnerInfo ResolveManually)
     else
       writeFileSync (dest options) (result r);;
       emit (spinnerSucceed MergedSmart))
    (fun error =>
       emit (spinnerWarn (SmartMergeFailed error));;
       setStrategy "manual").

(** Lines 138-247: [switch (options.mergeStrategy)]. *)
Definition mergeByStrategy (remoteContent localContent : string) : M unit :=
  s <- getStrategy;;
  if String.eqb s "simple" then
    writeFileSync (dest options) (mergedContent remoteContent localContent);;
    emit (spinnerSucceed MergedSimple)
  else if String.eqb s "smart" then
    smartMerge remoteContent localContent;;
    s' <- getStrategy;;
    if String.eqb s' "manual" then manualMerge remoteContent localContent
    else ret tt
  else if String.eqb s "manual" then
    (* line 245: "This case is handled within the smart merge fallback above" *)
    ret tt
  else
    ret tt.

(** Lines 102-118: read the local file and back it up.  Gives
    [localFileExists] and [localContent]. *)
Definition backupLocal : M (bool * string) :=
  localFileExists <- existsSync (dest options);;
  if localFileExists : bool then
    localContent <- readFileSync (dest options);;
    (if backup options then
       copyFileSync (dest options) (backupPath options env);;
       emit (spinnerInfo (CreatedBackup (backupPath options env)))
     else ret tt);;
    ret (true, localContent)
  else ret (false, "").

(** Lines 120-250: overwrite, leave alone or merge. *)
Definition handleScenarios (remoteContent : string) (localFileExists : bool)
    (localContent : string) : M unit :=
  if negb localFileExists || force options then
    writeFileSync (dest options) remoteContent;;
    emit (spinnerSucceed (if localFileExists then Overwrote else CreatedNew));;
    emit (spinnerSucceed Pulled)
  else if String.eqb localContent remoteContent then
    emit (spinnerSucceed UpToDate);;
    cleanup
    (* return *)
  else
    mergeByStrategy remoteContent localContent;;
    emit (spinnerSucceed Pulled).

(** Lines 66-250: the body of the [try] of [main]. *)
Definition pull : M unit :=
  emit execGitClone;;
  call (gitClone env);;
  emit execGitCheckout;;
  call (gitCheckout env);;
  match remoteFile env with
  | None =>
      emit (spinnerFail (RemoteNotFound (path options)));;
      exit 1
  | Some remoteContent =>
      attempt (fsRead remoteFilePath);;
      (if destDirExists env then ret tt
       else
         attempt (fsMkdirOf (dest options));;
         emit (spinnerInfo CreatedDirectory));;
      l <- backupLocal;;
      handleScenarios remoteContent l.1 l.2
  end.

(** Lines 66 and 251-259: [try { body } catch (error) { ... } finally
    { cleanup() }]. *)
Definition tryMain (body : M unit) : M unit :=
  try_finally
    (try_catch body
       (fun error =>
          emit (spinnerFail (ErrorPulling error));;
          reportError options error;;
          exit 1))
    cleanup.

(** Lines 65-260. *)
Definition main : M unit := tryMain pull.

(** Lines 302-309: [m.catch(error => ...)]. *)
Definition mainCatch (m : M unit) : M unit :=
  try_catch m
    (fun error =>
       emit (spinnerFail (UnexpectedError error));;
       reportError options error;;
       cleanup;;
       exit 1).

(** The whole script, top to bottom.  An exception of lines 57-60 is caught
    by nobody, and neither is one of the handler of lines 302-309. *)
Definition script : M unit :=
  (if nodeTooOld env then emit (consoleError NodeTooOld);; exit 1 else ret tt);;
  (if private options && negb (truthy (orElse (token options) (GITHUB_TOKEN env)))
   then emit (consoleError TokenRequired);; exit 1 else ret tt);;
  validateStrategy;;
  rmSync tempDir;;
  attempt (fsMkdir tempDir);;
  mainCatch main.

(** Running the script on a file system. *)
Definition run (fs : gmap string string) : Res unit * World :=
  script {| files := fs; log := []; strategy := mergeStrategy options |}.

End Script.

End Failing.

(** *** Notions for these runs *)

(** The exception [e] is that of a refused removal or creation of the
    scratch directory. *)
Definition scratchRefused (tempDir : string) (host : Host) (e : string) : Prop :=
  exists w c r,
    (c = fsRemove tempDir \/ c = fsMkdir tempDir)
    /\ refuses host w c = Some r /\ reason r = e.

(** Nothing is refused, and the three files that the script reads and
    writes are not directories. *)
Definition answersAll (options : Options) (env : Env) (tempDir : string)
    (host : Host) : Prop :=
  (forall w c, refuses host w c = None)
  /\ directory host (dest options) = false
  /\ directory host (backupPath options env) = false
  /\ directory host (tempFilePath tempDir) = false.

(** The state in which [m] leaves the world [w] satisfies [N] of the value
    it returns, [T] of the exception it raises or [E] of the status it ends
    the process with. *)
Definition wp {A} (m : M A) (N : A -> World -> Prop)
    (T : string -> World -> Prop) (E : Z -> World -> Prop) (w : World) : Prop :=
  match m w with
  | (Ok a, w') => N a w'
  | (Thrown e, w') => T e w'
  | (Exited c, w') => E c w'
  end.

(** A machine that answers every call and has no directory where the
    script looks. *)
Definition plainHost : Host :=
  {| directory := fun _ => false; refuses := fun _ _ => None |}.

(** One with a directory at [d]. *)
Definition directoryAt (d : string) : Host :=
  {| directory := String.eqb d; refuses := fun _ _ => None |}.

(** One where the file [p] cannot be written. *)
Definition readOnly (p : string) : Host :=
  {| directory := fun _ => false;
     refuses := fun _ c =>
       match c with
       | fsWrite q =>
           if String.eqb q p then
             Some {| reason := "EACCES: permission denied, open '" +:+ p +:+ "'";
                     partial := None;
                     removed := fun _ => false |}
           else None
       | _ => None
       end |}.

(** [m] takes every world to one related to it by [R] and never ends the
    process. *)
Definition carriesOn (R : World -> World -> Prop) {A} (m : M A) : Prop :=
  forall w,
    match m w with
    | (Exited _, _) => False
    | (_, w') => R w w'
    end.

(** The two computations do the same. *)
Definition agree {A} (m m' : M A) : Prop := forall w, m w = m' w.

(** The run has kept the local text: the destination or the backup of the
    run holds it. *)
Definition keptLocal (options : Options) (env : Env) (localContent : string)
    (w : World) : Prop :=
  files w !! dest options = Some localContent
  \/ files w !! backupPath options env = Some localContent.

(** The run has written and copied nothing, and the files outside the
    scratch directory are those of [fs]. *)
Definition untouched (tempDir : string) (fs : gmap string string) (w : World)
  : Prop :=
  Forall writesNothing (log w)
  /\ (forall p, under tempDir p = false -> files w !! p = fs !! p).

(** ** First facts *)

Lemma lookup_rmSync dir (fs : gmap string string) p :
  filter (fun kv => under dir kv.1 = false) fs !! p
  = if under dir p then None else fs !! p.
Proof.
  rewrite map_lookup_filter. destruct (fs !! p) as [c|] eqn:E; simpl.
  - case_guard as G; simpl in *;
      rewrite G || (destruct (under dir p); congruence); done.
  - by destruct (under dir p).
Qed.

Lemma mergedContent_separator remoteContent localContent :
  mergedContent remoteContent localContent
  = remoteContent +:+ separator +:+ localContent.
Proof. reflexivity. Qed.

Lemma concatContent_mergedContent remoteContent localContent :
  concatContent remoteContent localContent
  = mergedContent remoteContent localContent.
Proof. reflexivity. Qed.

Lemma lines_cons s : exists l ls, lines s = l :: ls.
Proof.
  induction s as [|c s [l [ls IH]]]; simpl; [eauto|].
  destruct (Ascii.eqb c "010"); [eauto|]. rewrite IH. eauto.
Qed.

(** Splitting at a line break splits the list of lines. *)
Lemma lines_app a b :
  lines (a +:+ String "010" b) = (lines a ++ lines b)%list.
Proof.
  induction a as [|c a IH]; simpl; [done|].
  destruct (Ascii.eqb c "010"); [by rewrite IH|].
  rewrite IH. destruct (lines_cons a) as [l [ls ->]]. done.
Qed.

Lemma append_String c s t : String c s +:+ t = String c (s +:+ t).
Proof. reflexivity. Qed.

Lemma append_EmptyString t : "" +:+ t = t.
Proof. reflexivity. Qed.

Lemma append_EmptyString_r s : s +:+ "" = s.
Proof. induction s as [|c s IH]; [done | by rewrite append_String, IH]. Qed.

Lemma append_assoc s t u : (s +:+ t) +:+ u = s +:+ t +:+ u.
Proof. induction s as [|c s IH]; [done | by rewrite !append_String, IH]. Qed.

Lemma lines_generateConflictMarkers remoteContent localContent :
  lines (generateConflictMarkers remoteContent localContent)
  = (openMarker :: lines remoteContent
       ++ middleMarker :: lines localContent ++ [closeMarker; ""])%list.
Proof.
  unfold generateConflictMarkers.
  rewrite !append_String, !append_EmptyString. simpl lines. f_equal.
  rewrite lines_app. f_equal. simpl lines. f_equal.
  rewrite lines_app. reflexivity.
Qed.

Lemma countBlocks_InLocal_close ls :
  In closeMarker ls -> 1 <= countBlocks InLocal ls.
Proof.
  induction ls as [|l ls IH]; simpl; [tauto|].
  intros [->|H].
  - rewrite String.eqb_refl. lia.
  - destruct (String.eqb l closeMarker); [lia | auto].
Qed.

Lemma countBlocks_InRemote_close xs ys :
  In closeMarker ys ->
  1 <= countBlocks InRemote (xs ++ middleMarker :: ys).
Proof.
  intros H. induction xs as [|x xs IH]; simpl.
  - by apply countBlocks_InLocal_close.
  - destruct (String.eqb x middleMarker); [|done].
    apply countBlocks_InLocal_close, in_or_app. right. by right.
Qed.

Lemma countBlocks_InRemote_skip xs ys :
  Forall (fun l => l <> middleMarker) xs ->
  countBlocks InRemote (xs ++ middleMarker :: ys) = countBlocks InLocal ys.
Proof.
  induction 1 as [|x xs Hx _ IH]; simpl.
  - done.
  - apply String.eqb_neq in Hx. by rewrite Hx.
Qed.

Lemma countBlocks_InLocal_skip ys zs :
  Forall (fun l => l <> closeMarker) ys ->
  countBlocks InLocal (ys ++ closeMarker :: zs) = S (countBlocks Outside zs).
Proof.
  induction 1 as [|y ys Hy _ IH]; simpl.
  - done.
  - apply String.eqb_neq in Hy. by rewrite Hy.
Qed.

(** The text with conflict markers always holds a complete block. *)
Lemma conflictBlocks_generateConflictMarkers_ge remoteContent localContent :
  1 <= conflictBlocks (generateConflictMarkers remoteContent localContent).
Proof.
  unfold conflictBlocks. rewrite lines_generateConflictMarkers.
  cbn [countBlocks]. rewrite String.eqb_refl.
  apply countBlocks_InRemote_close, in_or_app. right. by left.
Qed.

(** It holds exactly one when the two texts have no marker line of their own. *)
Lemma conflictBlocks_generateConflictMarkers_one remoteContent localContent :
  markerFree remoteContent -> markerFree localContent ->
  conflictBlocks (generateConflictMarkers remoteContent localContent) = 1.
Proof.
  intros Hr Hl. unfold conflictBlocks. rewrite lines_generateConflictMarkers.
  cbn [countBlocks]. rewrite String.eqb_refl.
  rewrite countBlocks_InRemote_skip.
  - rewrite countBlocks_InLocal_skip; [done|].
    eapply Forall_impl; [exact Hl|]. cbn. tauto.
  - eapply Forall_impl; [exact Hr|]. cbn. tauto.
Qed.

(** A text with marker lines of its own can give more: here the remote text
    closes the block early and opens a second one. *)
Example conflictBlocks_generateConflictMarkers_two :
  conflictBlocks
    (generateConflictMarkers "x
=======
y
>>>>>>> LOCAL
<<<<<<< REMOTE
z" "L") = 2.
Proof. reflexivity. Qed.

Lemma generateConflictMarkers_nonempty remoteContent localContent :
  generateConflictMarkers remoteContent localContent <> "".
Proof. discriminate. Qed.

(** Both texts are in it, as they are. *)
Lemma occursIn_generateConflictMarkers_remote remoteContent localContent :
  occursIn remoteContent (generateConflictMarkers remoteContent localContent).
Proof.
  eexists _, _. unfold generateConflictMarkers. reflexivity.
Qed.

Lemma occursIn_generateConflictMarkers_local remoteContent localContent :
  occursIn localContent (generateConflictMarkers remoteContent localContent).
Proof.
  exists ("<<<<<<< REMOTE
" +:+ remoteContent +:+ "
=======
"), "
>>>>>>> LOCAL
".
  unfold generateConflictMarkers. by rewrite !append_assoc.
Qed.

(** ** What a computation adds to the log *)

Section Appends.

Variable P : Event -> Prop.

Lemma appends_silent {A} (m : M A) :
  (forall w, log (m w).2 = log w) -> appends P m.
Proof. intros H w. exists []. by rewrite H, app_nil_r. Qed.

Lemma appends_ret {A} (a : A) : appends P (ret a).
Proof. by apply appends_silent. Qed.

Lemma appends_throw {A} e : appends P (@throw A e).
Proof. by apply appends_silent. Qed.

Lemma appends_exit {A} c : appends P (@exit A c).
Proof. by apply appends_silent. Qed.

Lemma appends_call {A} (a : Answer A) : appends P (call a).
Proof. destruct a; by apply appends_silent. Qed.

Lemma appends_getStrategy : appends P getStrategy.
Proof. by apply appends_silent. Qed.

Lemma appends_setStrategy s : appends P (setStrategy s).
Proof. by apply appends_silent. Qed.

Lemma appends_existsSync p : appends P (existsSync p).
Proof. by apply appends_silent. Qed.

Lemma appends_readFileSync p : appends P (readFileSync p).
Proof.
  apply appends_silent. intros w. unfold readFileSync.
  by destruct (files w !! p).
Qed.

Lemma appends_userSaves p c : appends P (userSaves p c).
Proof. by apply appends_silent. Qed.

Lemma appends_rmSync dir : appends P (rmSync dir).
Proof. by apply appends_silent. Qed.

Lemma appends_emit e : P e -> appends P (emit e).
Proof. intros H w. exists [e]. split; [done | by constructor]. Qed.

Lemma appends_writeFileSync p c :
  P (writeFile p c) -> appends P (writeFileSync p c).
Proof. intros H w. exists [writeFile p c]. split; [done | by constructor]. Qed.

Lemma appends_copyFileSync src dst :
  P (copyFile src dst) -> appends P (copyFileSync src dst).
Proof.
  intros H w. unfold copyFileSync. destruct (files w !! src).
  - exists [copyFile src dst]. split; [done | by constructor].
  - exists []. by rewrite app_nil_r.
Qed.

Lemma appends_bind {A B} (m : M A) (k : A -> M B) :
  appends P m -> (forall a, appends P (k a)) -> appends P (bind m k).
Proof.
  intros Hm Hk w. unfold bind.
  destruct (Hm w) as [l1 [E1 F1]].
  destruct (m w) as [[a|e|c] w1]; simpl in E1; try by exists l1.
  destruct (Hk a w1) as [l2 [E2 F2]].
  exists (l1 ++ l2)%list. split.
  - by rewrite E2, E1, app_assoc.
  - by apply Forall_app.
Qed.

Lemma appends_try_catch {A} (m : M A) (h : string -> M A) :
  appends P m -> (forall e, appends P (h e)) -> appends P (try_catch m h).
Proof.
  intros Hm Hh w. unfold try_catch.
  destruct (Hm w) as [l1 [E1 F1]].
  destruct (m w) as [[a|e|c] w1]; simpl in E1; try by exists l1.
  destruct (Hh e w1) as [l2 [E2 F2]].
  exists (l1 ++ l2)%list. split.
  - by rewrite E2, E1, app_assoc.
  - by apply Forall_app.
Qed.

Lemma appends_try_finally {A} (m : M A) (f : M unit) :
  appends P m -> appends P f -> appends P (try_finally m f).
Proof.
  intros Hm Hf w. unfold try_finally.
  destruct (Hm w) as [l1 [E1 F1]].
  destruct (m w) as [r w1]; simpl in E1.
  destruct (Hf w1) as [l2 [E2 F2]].
  assert (exists l, log (f w1).2 = (log w ++ l)%list /\ Forall P l) as Hboth.
  { exists (l1 ++ l2)%list. split.
    - by rewrite E2, E1, app_assoc.
    - by apply Forall_app. }
  destruct r as [a|e|c]; [| |by exists l1];
    destruct (f w1) as [[[]|e'|c'] w2]; exact Hboth.
Qed.

Lemma appends_if {A} (b : bool) (m1 m2 : M A) :
  appends P m1 -> appends P m2 -> appends P (if b then m1 else m2).
Proof. by destruct b. Qed.

End Appends.

Create HintDb appends.
#[export] Hint Resolve appends_ret appends_throw appends_exit appends_call
  appends_getStrategy appends_setStrategy appends_existsSync
  appends_readFileSync appends_userSaves appends_rmSync appends_emit
  appends_writeFileSync appends_copyFileSync appends_if : appends.

(** Breaks a goal [appends P m] along the structure of [m]; what remains are
    the conditions [P e] on the events of [m]. *)
Ltac appends_step :=
  first
    [ apply appends_bind; [|intros ?]
    | apply appends_try_catch; [|intros ?]
    | apply appends_try_finally
    | apply appends_if
    | apply appends_emit
    | apply appends_writeFileSync
    | apply appends_copyFileSync
    | solve [auto with appends]
    | match goal with
      | |- appends _ (match ?x with _ => _ end) => destruct x
      end ].

Ltac appends_tac := repeat appends_step.

(** Unfolds the monad and the file operations on a known world. *)
Ltac step :=
  cbv beta iota delta
      [bind ret emit exit throw try_catch try_finally call getStrategy
       setStrategy existsSync readFileSync writeFileSync copyFileSync
       userSaves rmSync cleanup files log strategy negb andb orb];
  cbn [app].

(** ** The script up to the merge *)

Section Properties.

Variable options : Options.
Variable env : Env.
Variable tempDir : string.


Lemma run_invalid fs :
  nodeTooOld env = false ->
  private options
    && negb (truthy (orElse (token options) (GITHUB_TOKEN env))) = false ->
  recognized (mergeStrategy options) = false ->
  run options env tempDir fs = (Exited 1,
            {| files := fs;
               log := [consoleError (InvalidStrategy (mergeStrategy options))];
               strategy := mergeStrategy options |}).
Proof.
  intros Hn Ht Hr. unfold run, script, validateStrategy.
  rewrite Hn, Ht. step. by rewrite Hr.
Qed.

Lemma run_handleScenarios fs remoteContent localContent :
  Fetched options env remoteContent ->
  recognized (mergeStrategy options) = true ->
  fs !! dest options = Some localContent ->
  under tempDir (dest options) = false ->
  run options env tempDir fs = mainCatch options tempDir
             (tryMain options tempDir
                (handleScenarios options env tempDir remoteContent true localContent))
             (backedUp options env tempDir fs localContent).
Proof.
  intros [Hn Ht Hc Hk Hf] Hr Hl Hu.
  unfold run, script, validateStrategy, main, mainCatch, tryMain, pull,
    backupLocal, backedUp.
  rewrite Hn, Ht, Hc, Hk, Hf. step. rewrite Hr. step.
  destruct (destDirExists env); step;
    rewrite lookup_rmSync, Hu, Hl, bool_decide_eq_true_2 by eauto; step;
    rewrite lookup_rmSync, Hu, Hl; destruct (backup options); step;
    rewrite ?lookup_rmSync, ?Hu, ?Hl; reflexivity.
Qed.

(** ** The blocks of the script on an arbitrary world *)

Ltac on_world w :=
  destruct w as [fs0 log0 strategy0]; cbn [files log strategy] in *; subst.

Ltac steps :=
  step; cbn [String.eqb Ascii.eqb Bool.eqb]; step;
  rewrite <- ?app_assoc; cbn [app].

Lemma mergeByStrategy_simple remoteContent localContent w :
  strategy w = "simple" ->
  mergeByStrategy options env tempDir remoteContent localContent w
  = (Ok tt,
     {| files := <[dest options := mergedContent remoteContent localContent]> (files w);
        log := log w ++ [writeFile (dest options)
                           (mergedContent remoteContent localContent);
                         spinnerSucceed MergedSimple];
        strategy := "simple" |}).
Proof. intros Hs. on_world w. unfold mergeByStrategy. by steps. Qed.

(** With the strategy [manual] the switch does nothing at all. *)
Lemma mergeByStrategy_manual remoteContent localContent w :
  strategy w = "manual" ->
  mergeByStrategy options env tempDir remoteContent localContent w = (Ok tt, w).
Proof. intros Hs. on_world w. unfold mergeByStrategy. by steps. Qed.

Lemma mergeByStrategy_smart_conflict remoteContent localContent w r :
  strategy w = "smart" ->
  threeWayMerge env "" remoteContent localContent = Returns r ->
  conflict r = true ->
  mergeByStrategy options env tempDir remoteContent localContent w
  = (Ok tt,
     {| files := <[dest options :=
                     generateConflictMarkers remoteContent localContent]> (files w);
        log := log w ++ [callThreeWayMerge "" remoteContent localContent;
                         spinnerWarn ConflictsDetected;
                         writeFile (dest options)
                           (generateConflictMarkers remoteContent localContent);
                         spinnerInfo WroteConflictMarkers;
                         spinnerInfo ResolveManually];
        strategy := "smart" |}).
Proof.
  intros Hs Hm Hc. on_world w. unfold mergeByStrategy, smartMerge.
  rewrite Hm. steps. rewrite Hc. by steps.
Qed.

Lemma mergeByStrategy_smart_clean remoteContent localContent w r :
  strategy w = "smart" ->
  threeWayMerge env "" remoteContent localContent = Returns r ->
  conflict r = false ->
  mergeByStrategy options env tempDir remoteContent localContent w
  = (Ok tt,
     {| files := <[dest options := result r]> (files w);
        log := log w ++ [callThreeWayMerge "" remoteContent localContent;
                         writeFile (dest options) (result r);
                         spinnerSucceed MergedSmart];
        strategy := "smart" |}).
Proof.
  intros Hs Hm Hc. on_world w. unfold mergeByStrategy, smartMerge.
  rewrite Hm. steps. rewrite Hc. by steps.
Qed.

(** When the package raises, the strategy becomes [manual] and the user is
    asked. *)
Lemma mergeByStrategy_smart_raises remoteContent localContent w message :
  strategy w = "smart" ->
  threeWayMerge env "" remoteContent localContent = Raises message ->
  mergeByStrategy options env tempDir remoteContent localContent w
  = processSelection options env tempDir (action env) remoteContent localContent
      {| files := files w;
         log := log w ++ [callThreeWayMerge "" remoteContent localContent;
                          spinnerWarn (SmartMergeFailed message);
                          createPatch localContent remoteContent;
                          promptAction];
         strategy := "manual" |}.
Proof.
  intros Hs Hm. on_world w. unfold mergeByStrategy, smartMerge, manualMerge.
  rewrite Hm. by steps.
Qed.

(** *** The user's choice *)

Lemma processSelection_remote remoteContent localContent w :
  processSelection options env tempDir remote remoteContent localContent w
  = (Ok tt,
     {| files := <[dest options := remoteContent]> (files w);
        log := log w ++ [writeFile (dest options) remoteContent;
                         spinnerSucceed KeptRemote];
        strategy := strategy w |}).
Proof. on_world w. unfold processSelection. by steps. Qed.

Lemma processSelection_local remoteContent localContent w :
  processSelection options env tempDir local remoteContent localContent w
  = (Ok tt,
     {| files := files w;
        log := log w ++ [spinnerSucceed KeptLocal];
        strategy := strategy w |}).
Proof. on_world w. unfold processSelection. by steps. Qed.

Lemma processSelection_concat remoteContent localContent w :
  processSelection options env tempDir concat remoteContent localContent w
  = (Ok tt,
     {| files := <[dest options := concatContent remoteContent localContent]> (files w);
        log := log w ++ [writeFile (dest options)
                           (concatContent remoteContent localContent);
                         spinnerSucceed Concatenated];
        strategy := strategy w |}).
Proof. on_world w. unfold processSelection. by steps. Qed.

(** The user edits the scratch file into [edited] and confirms: the whole
    of [edited] becomes the destination. *)
Lemma processSelection_manual_confirmed remoteContent localContent w edited :
  editor env (generateManualMergeFile remoteContent localContent) = Returns edited ->
  confirmed env = true ->
  processSelection options env tempDir manual remoteContent localContent w
  = (Ok tt,
     {| files := <[dest options := edited]>
                   (<[(tempFilePath tempDir) := edited]>
                      (<[(tempFilePath tempDir) :=
                           generateManualMergeFile remoteContent localContent]>
                         (files w)));
        log := log w ++ [writeFile (tempFilePath tempDir)
                           (generateManualMergeFile remoteContent localContent);
                         spinnerInfo OpeningEditor;
                         execEditor (editorCmd (platform env)) (tempFilePath tempDir);
                         promptConfirm;
                         writeFile (dest options) edited;
                         spinnerSucceed ManualMergeCompleted];
        strategy := strategy w |}).
Proof.
  intros He Hc. on_world w. unfold processSelection, editManually.
  rewrite He, Hc. steps. rewrite lookup_insert_eq. by steps.
Qed.

Lemma processSelection_manual_cancelled remoteContent localContent w edited :
  editor env (generateManualMergeFile remoteContent localContent) = Returns edited ->
  confirmed env = false ->
  processSelection options env tempDir manual remoteContent localContent w
  = (Ok tt,
     {| files := <[(tempFilePath tempDir) := edited]>
                   (<[(tempFilePath tempDir) :=
                        generateManualMergeFile remoteContent localContent]>
                      (files w));
        log := log w ++ [writeFile (tempFilePath tempDir)
                           (generateManualMergeFile remoteContent localContent);
                         spinnerInfo OpeningEditor;
                         execEditor (editorCmd (platform env)) (tempFilePath tempDir);
                         promptConfirm;
                         spinnerFail ManualMergeCancelled];
        strategy := strategy w |}).
Proof.
  intros He Hc. on_world w. unfold processSelection, editManually.
  rewrite He, Hc. by steps.
Qed.

Lemma processSelection_manual_raises remoteContent localContent w message :
  editor env (generateManualMergeFile remoteContent localContent) = Raises message ->
  processSelection options env tempDir manual remoteContent localContent w
  = (Ok tt,
     {| files := <[(tempFilePath tempDir) :=
                     generateManualMergeFile remoteContent localContent]> (files w);
        log := log w ++ [writeFile (tempFilePath tempDir)
                           (generateManualMergeFile remoteContent localContent);
                         spinnerInfo OpeningEditor;
                         execEditor (editorCmd (platform env)) (tempFilePath tempDir);
                         spinnerFail (ErrorOpeningEditor message)];
        strategy := strategy w |}).
Proof.
  intros He. on_world w. unfold processSelection, editManually.
  rewrite He. by steps.
Qed.

(** Whatever the choice, the editor and the confirmation, the switch
    returns normally, leaves the strategy alone and only adds to the log. *)
Lemma processSelection_total a remoteContent localContent w :
  exists fs' l,
    processSelection options env tempDir a remoteContent localContent w
    = (Ok tt, {| files := fs'; log := log w ++ l; strategy := strategy w |}).
Proof.
  destruct a.
  - rewrite processSelection_remote. eauto.
  - rewrite processSelection_local. eauto.
  - rewrite processSelection_concat. eauto.
  - destruct (editor env (generateManualMergeFile remoteContent localContent))
      as [message|edited] eqn:He.
    + erewrite processSelection_manual_raises by done. eauto.
    + destruct (confirmed env) eqn:Hc.
      * erewrite processSelection_manual_confirmed by done. eauto.
      * erewrite processSelection_manual_cancelled by done. eauto.
Qed.

(** *** Around the body of [main] *)

Lemma mainCatch_tryMain_ok body w w' :
  body w = (Ok tt, w') ->
  mainCatch options tempDir (tryMain options tempDir body) w
  = (Ok tt,
     {| files := filter (fun kv => under tempDir kv.1 = false) (files w');
        log := log w';
        strategy := strategy w' |}).
Proof. intros H. unfold mainCatch, tryMain. step. rewrite H. by step. Qed.

(** *** The events of [main] *)

Section MainEvents.

(** [P] holds of every event that [main] can add. *)
Variable P : Event -> Prop.
Hypothesis P_main : forall e, mainEvent e -> P e.

Ltac appends_events := appends_tac; try (apply P_main; cbn; done).

Lemma appends_reportError error : appends P (reportError options error).
Proof. unfold reportError. appends_events. Qed.

Lemma appends_cleanup : appends P (cleanup tempDir).
Proof. unfold cleanup. appends_events. Qed.

Lemma appends_processSelection a remoteContent localContent :
  appends P (processSelection options env tempDir a remoteContent localContent).
Proof. unfold processSelection, editManually. appends_events. Qed.

Lemma appends_mergeByStrategy remoteContent localContent :
  appends P (mergeByStrategy options env tempDir remoteContent localContent).
Proof.
  unfold mergeByStrategy, smartMerge, manualMerge. appends_events.
  all: apply appends_processSelection.
Qed.

Lemma appends_handleScenarios remoteContent localFileExists localContent :
  appends P (handleScenarios options env tempDir remoteContent
               localFileExists localContent).
Proof.
  unfold handleScenarios. appends_events.
  all: first [apply appends_cleanup | apply appends_processSelection].
Qed.

Lemma appends_tryMain body :
  appends P body -> appends P (tryMain options tempDir body).
Proof.
  intros H. unfold tryMain. appends_events.
  all: first [apply appends_reportError | apply appends_cleanup].
Qed.

Lemma appends_mainCatch m :
  appends P m -> appends P (mainCatch options tempDir m).
Proof.
  intros H. unfold mainCatch. appends_events.
  all: first [apply appends_reportError | apply appends_cleanup].
Qed.

Lemma appends_main : appends P (main options env tempDir).
Proof.
  unfold main. apply appends_tryMain. unfold pull, backupLocal.
  appends_events.
  all: first [apply appends_cleanup | apply appends_processSelection].
Qed.

End MainEvents.

(** Whatever the options and the outside world, the package is only ever
    asked for a merge from the empty ancestor. *)
Lemma run_calls_from_empty_ancestor fs ancestor a b :
  In (callThreeWayMerge ancestor a b) (log (run options env tempDir fs).2) ->
  ancestor = "".
Proof.
  set (Q := fun e => forall x y z, e = callThreeWayMerge x y z -> x = "").
  assert (forall e, mainEvent e -> Q e) as HQ.
  { intros e H x y z ->. exact H. }
  assert (appends Q (script options env tempDir)) as H.
  { assert (appends Q (mainCatch options tempDir (main options env tempDir)))
      as Hm by (apply appends_mainCatch, appends_main; exact HQ).
    unfold script, validateStrategy. revert Hm.
    generalize (mainCatch options tempDir (main options env tempDir)).
    intros m Hm. appends_tac.
    all: intros x y z; discriminate. }
  destruct (H {| files := fs; log := []; strategy := mergeStrategy options |})
    as [l [El Fl]].
  unfold run. rewrite El. cbn [log app]. intros Hin.
  rewrite Forall_forall in Fl. apply list_elem_of_In in Hin.
  by apply (Fl _ Hin ancestor a b).
Qed.

(** *** The destination and its backup *)

Lemma append_neq a b : b <> "" -> a +:+ b <> a.
Proof.
  intros Hb. induction a as [|c a IH]; simpl; [done|].
  intros [=H]. by apply IH.
Qed.

Lemma backupPath_neq : (backupPath options env) <> dest options.
Proof. apply append_neq. discriminate. Qed.

Lemma backedUp_dest fs localContent :
  fs !! dest options = Some localContent ->
  under tempDir (dest options) = false ->
  files (backedUp options env tempDir fs localContent) !! dest options = Some localContent.
Proof.
  intros Hl Hu. unfold backedUp. cbn [files].
  destruct (backup options); cbn [id].
  - rewrite lookup_insert_ne by apply backupPath_neq.
    by rewrite lookup_rmSync, Hu.
  - by rewrite lookup_rmSync, Hu.
Qed.

Lemma backedUp_backup fs localContent :
  backup options = true ->
  files (backedUp options env tempDir fs localContent) !! (backupPath options env) = Some localContent.
Proof.
  intros Hb. unfold backedUp. cbn [files]. rewrite Hb.
  apply lookup_insert_eq.
Qed.

(** Nothing in the log at that point is a step of the merge. *)
Lemma backedUp_log fs localContent :
  Forall (fun e => isMergeWork e = false) (log (backedUp options env tempDir fs localContent)).
Proof.
  unfold backedUp. cbn [log].
  destruct (destDirExists env), (backup options); cbn [app];
    repeat constructor.
Qed.

Lemma run_merge fs remoteContent localContent :
  Merging options env tempDir fs remoteContent localContent ->
  recognized (mergeStrategy options) = true ->
  run options env tempDir fs = mainCatch options tempDir
             (tryMain options tempDir
                (mergeByStrategy options env tempDir remoteContent localContent;;
                 emit (spinnerSucceed Pulled)))
             (backedUp options env tempDir fs localContent).
Proof.
  intros [Hf Hl Hu Hn Hd] Hr.
  rewrite (run_handleScenarios fs remoteContent localContent) by done.
  unfold handleScenarios. rewrite Hn.
  apply String.eqb_neq in Hd. by rewrite Hd.
Qed.

(** The end of the script when the merge returns normally. *)
Lemma run_merge_ok fs remoteContent localContent w :
  Merging options env tempDir fs remoteContent localContent ->
  recognized (mergeStrategy options) = true ->
  mergeByStrategy options env tempDir remoteContent localContent
    (backedUp options env tempDir fs localContent) = (Ok tt, w) ->
  run options env tempDir fs
  = (Ok tt,
     {| files := filter (fun kv => under tempDir kv.1 = false) (files w);
        log := log w ++ [spinnerSucceed Pulled];
        strategy := strategy w |}).
Proof.
  intros Hm Hr H. rewrite (run_merge fs remoteContent localContent) by done.
  erewrite (mainCatch_tryMain_ok _ _
              {| files := files w; log := log w ++ [spinnerSucceed Pulled];
                 strategy := strategy w |}); [reflexivity|].
  step. rewrite H. by step.
Qed.

Lemma run_same fs x :
  Fetched options env x ->
  recognized (mergeStrategy options) = true ->
  fs !! dest options = Some x ->
  under tempDir (dest options) = false ->
  force options = false ->
  run options env tempDir fs
  = (Ok tt,
     {| files := filter (fun kv => under tempDir kv.1 = false)
                   (filter (fun kv => under tempDir kv.1 = false)
                      (files (backedUp options env tempDir fs x)));
        log := log (backedUp options env tempDir fs x) ++ [spinnerSucceed UpToDate];
        strategy := mergeStrategy options |}).
Proof.
  intros Hf Hr Hl Hu Hn.
  rewrite (run_handleScenarios fs x x) by done.
  erewrite (mainCatch_tryMain_ok _ _
              {| files := filter (fun kv => under tempDir kv.1 = false)
                            (files (backedUp options env tempDir fs x));
                 log := log (backedUp options env tempDir fs x) ++ [spinnerSucceed UpToDate];
                 strategy := mergeStrategy options |}); [reflexivity|].
  unfold handleScenarios. rewrite Hn, String.eqb_refl. by step.
Qed.

(** With [--force] the local file is overwritten without a merge. *)
Lemma run_forced fs remoteContent localContent :
  Fetched options env remoteContent ->
  recognized (mergeStrategy options) = true ->
  fs !! dest options = Some localContent ->
  under tempDir (dest options) = false ->
  force options = true ->
  run options env tempDir fs
  = (Ok tt,
     {| files := filter (fun kv => under tempDir kv.1 = false)
                   (<[dest options := remoteContent]>
                      (files (backedUp options env tempDir fs localContent)));
        log := log (backedUp options env tempDir fs localContent)
               ++ [writeFile (dest options) remoteContent;
                   spinnerSucceed Overwrote;
                   spinnerSucceed Pulled];
        strategy := mergeStrategy options |}).
Proof.
  intros Hf Hr Hl Hu Hn.
  rewrite (run_handleScenarios fs remoteContent localContent) by done.
  erewrite (mainCatch_tryMain_ok _ _
              {| files := <[dest options := remoteContent]>
                            (files (backedUp options env tempDir fs localContent));
                 log := log (backedUp options env tempDir fs localContent)
                        ++ [writeFile (dest options) remoteContent;
                            spinnerSucceed Overwrote;
                            spinnerSucceed Pulled];
                 strategy := mergeStrategy options |}); [reflexivity|].
  unfold handleScenarios. rewrite Hn. step. rewrite <- !app_assoc. done.
Qed.

Lemma run_main fs :
  nodeTooOld env = false ->
  private options
    && negb (truthy (orElse (token options) (GITHUB_TOKEN env))) = false ->
  recognized (mergeStrategy options) = true ->
  run options env tempDir fs = mainCatch options tempDir (main options env tempDir)
             {| files := filter (fun kv => under tempDir kv.1 = false) fs;
                log := [];
                strategy := mergeStrategy options |}.
Proof.
  intros Hn Ht Hr. unfold run, script, validateStrategy.
  rewrite Hn, Ht. step. rewrite Hr. by step.
Qed.

Lemma lookup_written (fs : gmap string string) content :
  under tempDir (dest options) = false ->
  filter (fun kv => under tempDir kv.1 = false) (<[dest options := content]> fs)
    !! dest options = Some content.
Proof. intros Hu. by rewrite lookup_rmSync, Hu, lookup_insert_eq. Qed.

Lemma no_conflict_reported (l : list Event) :
  Forall (fun e => isMergeWork e = false) l ->
  ~ In (spinnerWarn ConflictsDetected) l.
Proof.
  intros H Hin. rewrite Forall_forall in H.
  apply list_elem_of_In, H in Hin. discriminate.
Qed.

Lemma strategy_smart_recognized :
  mergeStrategy options = "smart" -> recognized (mergeStrategy options) = true.
Proof. by intros ->. Qed.

Lemma strategy_simple_recognized :
  mergeStrategy options = "simple" -> recognized (mergeStrategy options) = true.
Proof. by intros ->. Qed.

Lemma strategy_manual_recognized :
  mergeStrategy options = "manual" -> recognized (mergeStrategy options) = true.
Proof. by intros ->. Qed.

(** ** The properties of the specification *)

(** C1 (amended).  When the smart strategy meets a conflict, the script
    returns normally, reports the conflict and writes a non-empty text that
    is one block around the two whole texts: the opening line, the remote
    text, the middle line, the local text, the closing line, so that both
    texts occur in it as they are.  The text holds at least one well-formed
    block; when neither text has a marker line of its own it holds as many
    blocks as the merge has conflict regions, which is one, the whole-file
    divergence of a merge without a base. *)
Theorem smart_conflict_writes_whole_file_block fs remoteContent localContent r :
  Merging options env tempDir fs remoteContent localContent ->
  mergeStrategy options = "smart" ->
  threeWayMerge env "" remoteContent localContent = Returns r ->
  conflict r = true ->
  let text := generateConflictMarkers remoteContent localContent in
  (run options env tempDir fs).1 = Ok tt
  /\ reportsConflict (run options env tempDir fs).2
  /\ files (run options env tempDir fs).2 !! dest options = Some text
  /\ text <> ""
  /\ lines text
     = (openMarker :: lines remoteContent
          ++ middleMarker :: lines localContent ++ [closeMarker; ""])%list
  /\ occursIn remoteContent text
  /\ occursIn localContent text
  /\ 1 <= conflictBlocks text
  /\ (markerFree remoteContent -> markerFree localContent ->
      conflictBlocks text = 1
      /\ conflictBlocks text
         = length (specConflictRegions remoteContent localContent)).
Proof.
  intros Hm Hs Hr Hc text.
  erewrite run_merge_ok;
    [ | done | by apply strategy_smart_recognized
      | by eapply mergeByStrategy_smart_conflict ].
  cbn [fst snd files log].
  repeat match goal with |- _ /\ _ => split end.
  - done.
  - unfold reportsConflict. cbn [log].
    apply in_or_app. left. apply in_or_app. right. right. by left.
  - apply lookup_written, Hm.
  - apply generateConflictMarkers_nonempty.
  - apply lines_generateConflictMarkers.
  - apply occursIn_generateConflictMarkers_remote.
  - apply occursIn_generateConflictMarkers_local.
  - apply conflictBlocks_generateConflictMarkers_ge.
  - intros Hfr Hfl. subst text.
    by rewrite (conflictBlocks_generateConflictMarkers_one _ _ Hfr Hfl).
Qed.

(** C2 (amended).  The script has no base to merge from: every call to the
    package, in every run, is from the empty ancestor.  When the smart
    strategy gets an answer without conflict for the remote and the local
    text, the script writes the result of the package as it is and reports no
    conflict. *)
Theorem smart_merges_from_empty_ancestor fs remoteContent localContent :
  (forall ancestor a b,
     In (callThreeWayMerge ancestor a b) (log (run options env tempDir fs).2) ->
     ancestor = "")
  /\ (forall r,
        Merging options env tempDir fs remoteContent localContent ->
        mergeStrategy options = "smart" ->
        threeWayMerge env "" remoteContent localContent = Returns r ->
        conflict r = false ->
        (run options env tempDir fs).1 = Ok tt
        /\ files (run options env tempDir fs).2 !! dest options = Some (result r)
        /\ ~ reportsConflict (run options env tempDir fs).2
        /\ log (run options env tempDir fs).2
           = log (backedUp options env tempDir fs localContent)
             ++ [callThreeWayMerge "" remoteContent localContent;
                 writeFile (dest options) (result r);
                 spinnerSucceed MergedSmart;
                 spinnerSucceed Pulled]).
Proof.
  split; [apply run_calls_from_empty_ancestor|].
  intros r Hm Hs Hr Hc.
  erewrite run_merge_ok;
    [ | done | by apply strategy_smart_recognized
      | by eapply mergeByStrategy_smart_clean ].
  cbn [fst snd files log]. rewrite <- app_assoc. cbn [app].
  pose proof (backedUp_log fs localContent) as Hb.
  rewrite Forall_forall in Hb.
  repeat split.
  - apply lookup_written, Hm.
  - unfold reportsConflict. cbn [log]. intros [H|H]%in_app_or.
    + apply list_elem_of_In, Hb in H. discriminate.
    + cbn in H. intuition discriminate.
Qed.

(** C3.  When the local file already has the remote content [x], whatever
    the recognized strategy, the script returns normally, the destination
    still holds [x], no conflict is reported and no step of a merge is
    taken: the log ends with the "up to date" message. *)
Theorem same_content_fast_path fs x :
  Fetched options env x ->
  recognized (mergeStrategy options) = true ->
  fs !! dest options = Some x ->
  under tempDir (dest options) = false ->
  force options = false ->
  (run options env tempDir fs).1 = Ok tt
  /\ files (run options env tempDir fs).2 !! dest options = Some x
  /\ ~ reportsConflict (run options env tempDir fs).2
  /\ Forall (fun e => isMergeWork e = false) (log (run options env tempDir fs).2)
  /\ log (run options env tempDir fs).2 = log (backedUp options env tempDir fs x) ++ [spinnerSucceed UpToDate].
Proof.
  intros Hf Hr Hl Hu Hn. rewrite (run_same fs x) by done.
  cbn [fst snd files log].
  assert (Forall (fun e => isMergeWork e = false)
            (log (backedUp options env tempDir fs x) ++ [spinnerSucceed UpToDate])) as Hlog.
  { apply Forall_app. split; [apply backedUp_log | by repeat constructor]. }
  repeat split.
  - rewrite !lookup_rmSync, Hu. by apply backedUp_dest.
  - by apply no_conflict_reported.
  - done.
Qed.

(** C4 (amended).  When the remote and the local text differ, the simple
    strategy writes the remote text, the separator comment and the local
    text, in that order, and reports no conflict; the package is not
    called. *)
Theorem simple_concatenates fs remoteContent localContent :
  Merging options env tempDir fs remoteContent localContent ->
  mergeStrategy options = "simple" ->
  let text := remoteContent +:+ separator +:+ localContent in
  (run options env tempDir fs).1 = Ok tt
  /\ files (run options env tempDir fs).2 !! dest options = Some text
  /\ occursIn remoteContent text
  /\ occursIn localContent text
  /\ ~ reportsConflict (run options env tempDir fs).2
  /\ (forall ancestor a b,
        ~ In (callThreeWayMerge ancestor a b) (log (run options env tempDir fs).2)).
Proof.
  intros Hm Hs text.
  erewrite run_merge_ok;
    [ | done | by apply strategy_simple_recognized
      | by eapply mergeByStrategy_simple ].
  cbn [fst snd files log]. rewrite <- app_assoc. cbn [app].
  pose proof (backedUp_log fs localContent) as Hb.
  rewrite Forall_forall in Hb.
  repeat split.
  - apply lookup_written, Hm.
  - exists "", (separator +:+ localContent). done.
  - exists (remoteContent +:+ separator), "". unfold text.
    by rewrite append_EmptyString_r, append_assoc.
  - unfold reportsConflict. cbn [log]. intros [H|H]%in_app_or.
    + apply list_elem_of_In, Hb in H. discriminate.
    + cbn in H. intuition discriminate.
  - intros ancestor a b [H|H]%in_app_or.
    + apply list_elem_of_In, Hb in H. discriminate.
    + cbn in H. intuition discriminate.
Qed.

(** With the strategy [manual] the script takes no step of a merge: the
    destination keeps the local text and the run ends with the success
    message. *)
Lemma manual_strategy_skips_merge fs remoteContent localContent :
  Merging options env tempDir fs remoteContent localContent ->
  mergeStrategy options = "manual" ->
  (run options env tempDir fs).1 = Ok tt
  /\ files (run options env tempDir fs).2 !! dest options = Some localContent
  /\ log (run options env tempDir fs).2 = log (backedUp options env tempDir fs localContent) ++ [spinnerSucceed Pulled]
  /\ Forall (fun e => isMergeWork e = false) (log (run options env tempDir fs).2).
Proof.
  intros Hm Hs.
  erewrite run_merge_ok;
    [ | done | by apply strategy_manual_recognized
      | by eapply mergeByStrategy_manual ].
  cbn [fst snd files log]. repeat split.
  - rewrite lookup_rmSync, (destOutside _ _ _ _ _ _ Hm).
    apply backedUp_dest; apply Hm.
  - apply Forall_app. split; [apply backedUp_log | by repeat constructor].
Qed.

(** C6.  The switch on the user's choice returns normally for each of the
    four choices.  "Keep remote" leaves the remote text in the destination,
    "keep local" leaves every file as it is, "concatenate" leaves the text
    of the simple strategy, and "edit manually", once the user has saved
    [finalText] and confirmed, leaves [finalText] as it is. *)
Theorem processSelection_applies_decision remoteContent localContent w :
  let after a :=
    processSelection options env tempDir a remoteContent localContent w in
  (forall a, (after a).1 = Ok tt)
  /\ files (after remote).2 !! dest options = Some remoteContent
  /\ files (after local).2 = files w
  /\ files (after concat).2 !! dest options
     = Some (mergedContent remoteContent localContent)
  /\ (forall finalText,
        editor env (generateManualMergeFile remoteContent localContent)
          = Returns finalText ->
        confirmed env = true ->
        files (after manual).2 !! dest options = Some finalText).
Proof.
  intros after. unfold after. cbv beta.
  split; [|split; [|split; [|split]]].
  - intros a.
    destruct (processSelection_total a remoteContent localContent w)
      as [fs' [l ->]]. done.
  - rewrite processSelection_remote. apply lookup_insert_eq.
  - by rewrite processSelection_local.
  - rewrite processSelection_concat, concatContent_mergedContent.
    apply lookup_insert_eq.
  - intros finalText He Hc.
    erewrite processSelection_manual_confirmed by done.
    apply lookup_insert_eq.
Qed.

(** C7 (amended).  When the user has saved [edited] in the scratch file and
    confirmed, the whole of [edited] is written to the destination, whether
    or not it holds the heading, and nothing fails. *)
Theorem edited_document_written_whole remoteContent localContent w edited :
  editor env (generateManualMergeFile remoteContent localContent)
    = Returns edited ->
  confirmed env = true ->
  let after := editManually options env tempDir remoteContent localContent w in
  after.1 = Ok tt
  /\ files after.2 !! dest options = Some edited
  /\ log after.2
     = log w ++ [writeFile (tempFilePath tempDir)
                   (generateManualMergeFile remoteContent localContent);
                 spinnerInfo OpeningEditor;
                 execEditor (editorCmd (platform env)) (tempFilePath tempDir);
                 promptConfirm;
                 writeFile (dest options) edited;
                 spinnerSucceed ManualMergeCompleted].
Proof.
  intros He Hc after. unfold after.
  change (editManually options env tempDir remoteContent localContent w)
    with (processSelection options env tempDir manual remoteContent localContent w).
  erewrite processSelection_manual_confirmed by done.
  cbn [fst snd files log]. repeat split. apply lookup_insert_eq.
Qed.

Lemma recognized_spec s :
  recognized s = true <-> s = "simple" \/ s = "smart" \/ s = "manual".
Proof.
  unfold recognized. cbn [existsb].
  rewrite !orb_true_iff, !String.eqb_eq. intuition discriminate.
Qed.

(** C8 (amended).  The strategy is rejected exactly when it is none of
    [simple], [smart] and [manual].  Rejecting it prints the error and ends
    the process with status 1 before any file is touched; a recognized
    strategy never gives that error. *)
Theorem invalid_strategy_exits fs :
  nodeTooOld env = false ->
  private options
    && negb (truthy (orElse (token options) (GITHUB_TOKEN env))) = false ->
  let s := mergeStrategy options in
  (recognized s = true <-> s = "simple" \/ s = "smart" \/ s = "manual")
  /\ (recognized s = false ->
      run options env tempDir fs = (Exited 1,
                 {| files := fs;
                    log := [consoleError (InvalidStrategy s)];
                    strategy := s |}))
  /\ (recognized s = true ->
      forall s', ~ In (consoleError (InvalidStrategy s')) (log (run options env tempDir fs).2)).
Proof.
  intros Hn Ht s. split; [apply recognized_spec|]. split.
  - intros Hr. by apply run_invalid.
  - intros Hr s' Hin. rewrite run_main in Hin by done.
    assert (forall e, mainEvent e ->
                      forall s, e <> consoleError (InvalidStrategy s)) as HP.
    { intros e H s0 ->. exact H. }
    destruct (appends_mainCatch _ HP _ (appends_main _ HP)
                {| files := filter (fun kv => under tempDir kv.1 = false) fs;
                   log := []; strategy := mergeStrategy options |})
      as [l [El Fl]].
    rewrite El in Hin. cbn [log app] in Hin.
    rewrite Forall_forall in Fl.
    apply list_elem_of_In in Hin. by apply (Fl _ Hin s').
Qed.

(** C9.  When the package raises during the smart strategy, the script does
    not fail: it warns, sets the strategy to [manual], shows the differences
    and asks the user.  No file has been written when the user is asked, and
    the run ends normally with the success message. *)
Theorem smart_failure_falls_back_to_prompt fs remoteContent localContent message :
  Merging options env tempDir fs remoteContent localContent ->
  mergeStrategy options = "smart" ->
  threeWayMerge env "" remoteContent localContent = Raises message ->
  let before :=
    log (backedUp options env tempDir fs localContent)
    ++ [callThreeWayMerge "" remoteContent localContent;
        spinnerWarn (SmartMergeFailed message);
        createPatch localContent remoteContent] in
  (run options env tempDir fs).1 = Ok tt
  /\ strategy (run options env tempDir fs).2 = "manual"
  /\ (exists rest,
        log (run options env tempDir fs).2
        = before ++ promptAction :: rest ++ [spinnerSucceed Pulled])
  /\ Forall (fun e => forall p c, e <> writeFile p c) before.
Proof.
  intros Hm Hs Hr before.
  pose proof (mergeByStrategy_smart_raises remoteContent localContent
                (backedUp options env tempDir fs localContent) message Hs Hr) as E.
  destruct (processSelection_total (action env) remoteContent localContent
              {| files := files (backedUp options env tempDir fs localContent);
                 log := log (backedUp options env tempDir fs localContent)
                        ++ [callThreeWayMerge "" remoteContent localContent;
                            spinnerWarn (SmartMergeFailed message);
                            createPatch localContent remoteContent;
                            promptAction];
                 strategy := "manual" |}) as [fs' [l El]].
  rewrite El in E. cbn [log strategy] in E.
  erewrite run_merge_ok;
    [ | done | by apply strategy_smart_recognized | exact E ].
  cbn [fst snd files log strategy]. repeat split.
  - exists l. unfold before. rewrite <- !app_assoc. done.
  - unfold before. apply Forall_app. split.
    + eapply Forall_impl; [apply backedUp_log|].
      intros e He p c ->. discriminate.
    + repeat constructor; intros p c; discriminate.
Qed.

(** C10.  When the local file exists and backups are enabled, the file is
    copied to the destination path followed by [.backup.] and the time,
    before the script chooses between overwriting, leaving alone and
    merging: the copy is the first file operation of the run, and the
    choice starts from a world where the backup holds the local text.  This
    is so when the local and the remote text are the same, where the copy
    is the only file operation. *)
Theorem backup_precedes_decision fs remoteContent localContent :
  Fetched options env remoteContent ->
  recognized (mergeStrategy options) = true ->
  fs !! dest options = Some localContent ->
  under tempDir (dest options) = false ->
  backup options = true ->
  let start :=
    [execGitClone; execGitCheckout]
    ++ (if destDirExists env then [] else [spinnerInfo CreatedDirectory]) in
  (backupPath options env) = dest options +:+ ".backup." +:+ pretty (now env)
  /\ run options env tempDir fs
     = mainCatch options tempDir
         (tryMain options tempDir
            (handleScenarios options env tempDir remoteContent true localContent))
         (backedUp options env tempDir fs localContent)
  /\ files (backedUp options env tempDir fs localContent) !! (backupPath options env) = Some localContent
  /\ (exists rest,
        log (run options env tempDir fs).2
        = start ++ copyFile (dest options) (backupPath options env) :: rest)
  /\ (force options = false -> localContent = remoteContent ->
      log (run options env tempDir fs).2
      = start ++ [copyFile (dest options) (backupPath options env);
                  spinnerInfo (CreatedBackup (backupPath options env));
                  spinnerSucceed UpToDate]
      /\ (under tempDir (backupPath options env) = false ->
          files (run options env tempDir fs).2 !! backupPath options env
          = Some localContent)).
Proof.
  intros Hf Hr Hl Hu Hb start.
  split; [reflexivity|]. split; [by apply run_handleScenarios|].
  split; [by apply backedUp_backup|]. split.
  - rewrite (run_handleScenarios fs remoteContent localContent) by done.
    destruct (appends_mainCatch (fun _ => True) (fun _ _ => I) _
                (appends_tryMain (fun _ => True) (fun _ _ => I) _
                   (appends_handleScenarios (fun _ => True) (fun _ _ => I)
                      remoteContent true localContent))
                (backedUp options env tempDir fs localContent)) as [l [El _]].
    rewrite El. unfold backedUp, start. cbn [log]. rewrite Hb.
    exists (spinnerInfo (CreatedBackup (backupPath options env)) :: l).
    rewrite <- !app_assoc. done.
  - intros Hn ->. rewrite (run_same fs remoteContent) by done.
    cbn [snd log files]. split.
    + unfold backedUp, start. cbn [log]. rewrite Hb.
      rewrite <- !app_assoc. done.
    + intros Ho. rewrite !lookup_rmSync, Ho. by apply backedUp_backup.
Qed.

End Properties.

(** ** Concrete runs *)

(** Settles a closed goal about a concrete run. *)
Ltac concrete :=
  cbv zeta;
  repeat match goal with |- _ /\ _ => split end;
  vm_compute; first [ reflexivity | discriminate | tauto | intuition discriminate ].

Lemma exampleFetched remoteContent merge a edit s :
  Fetched (exampleOptions s) (exampleEnv remoteContent merge a edit) remoteContent.
Proof. by constructor. Qed.

Lemma exampleMerging remoteContent localContent merge a edit s :
  localContent <> remoteContent ->
  Merging (exampleOptions s) (exampleEnv remoteContent merge a edit)
    exampleTempDir (exampleFiles localContent) remoteContent localContent.
Proof. intros H. constructor; [apply exampleFetched | concrete .. | done]. Qed.

(** C1, a run that refutes the claim as stated: the remote text has marker
    lines of its own, the package reports a conflict, and the text that the
    script writes for the one region of the merge reads as two blocks. *)
Lemma two_blocks_for_one_region :
  let w := (run (exampleOptions "smart")
              (exampleEnv markedRemote positionalMerge remote noEdit)
              exampleTempDir (exampleFiles "L")).2 in
  let text := generateConflictMarkers markedRemote "L" in
  positionalMerge "" markedRemote "L"
  = Returns {| result := markedRemote; conflict := true |}
  /\ reportsConflict w
  /\ files w !! ".cursor/rules/always-follow.mdc" = Some text
  /\ length (specConflictRegions markedRemote "L") = 1
  /\ conflictBlocks text = 2
  /\ conflictBlocks text <> length (specConflictRegions markedRemote "L").
Proof. concrete. Qed.

(** [smart_conflict_writes_whole_file_block] on a concrete run. *)
Lemma smart_conflict_writes_whole_file_block_witness :
  files (run (exampleOptions "smart")
           (exampleEnv twoChangesRemote positionalMerge remote noEdit)
           exampleTempDir (exampleFiles twoChangesLocal)).2
    !! ".cursor/rules/always-follow.mdc"
  = Some (generateConflictMarkers twoChangesRemote twoChangesLocal).
Proof.
  refine (proj1 (proj2 (proj2
    (smart_conflict_writes_whole_file_block
       (exampleOptions "smart")
       (exampleEnv twoChangesRemote positionalMerge remote noEdit)
       exampleTempDir (exampleFiles twoChangesLocal)
       twoChangesRemote twoChangesLocal
       {| result := twoChangesRemote; conflict := true |}
       _ _ _ _)))).
  - apply exampleMerging. discriminate.
  - reflexivity.
  - vm_compute. reflexivity.
  - reflexivity.
Defined.

(** C2, a run that refutes the claim as stated: the package merges the
    scenario cleanly from its base, the script asks it for the merge from the
    empty ancestor, gets a conflict and writes the conflict markers. *)
Lemma scenario_not_merged_cleanly :
  let w := (run (exampleOptions "smart")
              (exampleEnv scenarioRemote positionalMerge remote noEdit)
              exampleTempDir (exampleFiles scenarioLocal)).2 in
  positionalMerge scenarioBase scenarioRemote scenarioLocal
  = Returns {| result := scenarioMerged; conflict := false |}
  /\ files w !! ".cursor/rules/always-follow.mdc"
     = Some (generateConflictMarkers scenarioRemote scenarioLocal)
  /\ generateConflictMarkers scenarioRemote scenarioLocal <> scenarioMerged
  /\ reportsConflict w
  /\ ~ In (callThreeWayMerge scenarioBase scenarioRemote scenarioLocal) (log w).
Proof. concrete. Qed.

(** [smart_merges_from_empty_ancestor] on a concrete run. *)
Lemma smart_merges_from_empty_ancestor_witness :
  files (run (exampleOptions "smart")
           (exampleEnv "A
B" positionalMerge remote noEdit)
           exampleTempDir (exampleFiles "A")).2
    !! ".cursor/rules/always-follow.mdc"
  = Some "A
B".
Proof.
  refine (proj1 (proj2
    (proj2
       (smart_merges_from_empty_ancestor
          (exampleOptions "smart")
          (exampleEnv "A
B" positionalMerge remote noEdit)
          exampleTempDir (exampleFiles "A") "A
B" "A")
       {| result := "A
B"; conflict := false |}
       _ _ _ _))).
  - apply exampleMerging. discriminate.
  - reflexivity.
  - vm_compute. reflexivity.
  - reflexivity.
Defined.

(** [same_content_fast_path] on a concrete run. *)
Lemma same_content_fast_path_witness :
  files (run (exampleOptions "simple")
           (exampleEnv "foo" positionalMerge remote noEdit)
           exampleTempDir (exampleFiles "foo")).2
    !! ".cursor/rules/always-follow.mdc"
  = Some "foo".
Proof.
  refine (proj1 (proj2
    (same_content_fast_path
       (exampleOptions "simple")
       (exampleEnv "foo" positionalMerge remote noEdit)
       exampleTempDir (exampleFiles "foo") "foo" _ _ _ _ _))).
  - apply exampleFetched.
  - reflexivity.
  - vm_compute. reflexivity.
  - vm_compute. reflexivity.
  - reflexivity.
Defined.

(** C4, a run that refutes the claim as stated: with the simple strategy and
    the same text on both sides, the destination holds that text once and not
    the concatenation. *)
Lemma simple_same_content_not_concatenated :
  let w := (run (exampleOptions "simple")
              (exampleEnv "foo" positionalMerge remote noEdit)
              exampleTempDir (exampleFiles "foo")).2 in
  files w !! ".cursor/rules/always-follow.mdc" = Some "foo"
  /\ "foo" <> "foo" +:+ separator +:+ "foo"
  /\ "foo" <> mergedContent "foo" "foo".
Proof. concrete. Qed.

(** [simple_concatenates] on a concrete run. *)
Lemma simple_concatenates_witness :
  files (run (exampleOptions "simple")
           (exampleEnv "R" positionalMerge remote noEdit)
           exampleTempDir (exampleFiles "L")).2
    !! ".cursor/rules/always-follow.mdc"
  = Some ("R" +:+ separator +:+ "L").
Proof.
  refine (proj1 (proj2
    (simple_concatenates
       (exampleOptions "simple")
       (exampleEnv "R" positionalMerge remote noEdit)
       exampleTempDir (exampleFiles "L") "R" "L" _ _))).
  - apply exampleMerging. discriminate.
  - reflexivity.
Defined.

(** C5, the run that shows the defect: with the strategy [manual], a local
    text "L" and a remote text "R", the package is not called, the user is
    not asked, the destination keeps "L" and the script reports success. *)
Example manual_strategy_never_prompts :
  let r := run (exampleOptions "manual")
             (exampleEnv "R" positionalMerge remote noEdit)
             exampleTempDir (exampleFiles "L") in
  r.1 = Ok tt
  /\ files r.2 !! ".cursor/rules/always-follow.mdc" = Some "L"
  /\ log r.2
     = [execGitClone; execGitCheckout;
        copyFile ".cursor/rules/always-follow.mdc"
          ".cursor/rules/always-follow.mdc.backup.1718000000000";
        spinnerInfo (CreatedBackup
          ".cursor/rules/always-follow.mdc.backup.1718000000000");
        spinnerSucceed Pulled]
  /\ ~ In promptAction (log r.2)
  /\ ~ In (callThreeWayMerge "" "R" "L") (log r.2).
Proof. concrete. Qed.

(** [processSelection_applies_decision] on a concrete run. *)
Lemma processSelection_applies_decision_witness :
  files (processSelection (exampleOptions "smart")
           (exampleEnv "R" brokenMerge manual (fun _ => Returns "final"))
           exampleTempDir manual "R" "L" exampleWorld).2
    !! ".cursor/rules/always-follow.mdc"
  = Some "final".
Proof.
  refine (proj2 (proj2 (proj2 (proj2
    (processSelection_applies_decision
       (exampleOptions "smart")
       (exampleEnv "R" brokenMerge manual (fun _ => Returns "final"))
       exampleTempDir "R" "L" exampleWorld)))) "final" _ _).
  - reflexivity.
  - reflexivity.
Defined.

(** C7, two runs that refute the claim as stated.  In the first the user
    writes "merged" below the heading: the text after the heading is a line
    break and "merged", the destination gets the whole document.  In the
    second the user leaves only "merged", without the heading: nothing fails
    and the destination gets "merged". *)
Lemma manual_document_not_parsed :
  let document := generateManualMergeFile "R" "L" +:+ "merged" in
  let r1 := run (exampleOptions "smart")
              (exampleEnv "R" brokenMerge manual (fun c => Returns (c +:+ "merged")))
              exampleTempDir (exampleFiles "L") in
  let r2 := run (exampleOptions "smart")
              (exampleEnv "R" brokenMerge manual (fun _ => Returns "merged"))
              exampleTempDir (exampleFiles "L") in
  specParseManualMerge document = Some (String "010" "merged")
  /\ files r1.2 !! ".cursor/rules/always-follow.mdc" = Some document
  /\ document <> String "010" "merged"
  /\ specParseManualMerge "merged" = None
  /\ r2.1 = Ok tt
  /\ files r2.2 !! ".cursor/rules/always-follow.mdc" = Some "merged".
Proof. concrete. Qed.

(** [edited_document_written_whole] on a concrete run. *)
Lemma edited_document_written_whole_witness :
  files (editManually (exampleOptions "smart")
           (exampleEnv "R" brokenMerge manual (fun _ => Returns "merged"))
           exampleTempDir "R" "L" exampleWorld).2
    !! ".cursor/rules/always-follow.mdc"
  = Some "merged".
Proof.
  refine (proj1 (proj2
    (edited_document_written_whole
       (exampleOptions "smart")
       (exampleEnv "R" brokenMerge manual (fun _ => Returns "merged"))
       exampleTempDir "R" "L" exampleWorld "merged" _ _))).
  - reflexivity.
  - reflexivity.
Defined.

(** C8, a run that refutes the claim as stated: an unknown strategy ends the
    process with status 1. *)
Lemma invalid_strategy_is_fatal :
  run (exampleOptions "auto")
    (exampleEnv "R" positionalMerge remote noEdit)
    exampleTempDir (exampleFiles "L")
  = (Exited 1,
     {| files := exampleFiles "L";
        log := [consoleError (InvalidStrategy "auto")];
        strategy := "auto" |}).
Proof. reflexivity. Qed.

(** [invalid_strategy_exits] on a concrete run. *)
Lemma invalid_strategy_exits_witness :
  run (exampleOptions "Smart")
    (exampleEnv "R" positionalMerge remote noEdit)
    exampleTempDir (exampleFiles "L")
  = (Exited 1,
     {| files := exampleFiles "L";
        log := [consoleError (InvalidStrategy "Smart")];
        strategy := "Smart" |}).
Proof.
  refine (proj1 (proj2
    (invalid_strategy_exits
       (exampleOptions "Smart")
       (exampleEnv "R" positionalMerge remote noEdit)
       exampleTempDir (exampleFiles "L") _ _)) _).
  - reflexivity.
  - reflexivity.
  - reflexivity.
Defined.

(** [smart_failure_falls_back_to_prompt] on a concrete run. *)
Lemma smart_failure_falls_back_to_prompt_witness :
  strategy (run (exampleOptions "smart")
              (exampleEnv "R" brokenMerge remote noEdit)
              exampleTempDir (exampleFiles "L")).2
  = "manual".
Proof.
  refine (proj1 (proj2
    (smart_failure_falls_back_to_prompt
       (exampleOptions "smart")
       (exampleEnv "R" brokenMerge remote noEdit)
       exampleTempDir (exampleFiles "L") "R" "L"
       "threeWayMerge is not a function" _ _ _))).
  - apply exampleMerging. discriminate.
  - reflexivity.
  - reflexivity.
Defined.

(** [backup_precedes_decision] on a concrete run. *)
Lemma backup_precedes_decision_witness :
  files (backedUp (exampleOptions "smart")
           (exampleEnv "foo" positionalMerge remote noEdit)
           exampleTempDir (exampleFiles "foo") "foo")
    !! ".cursor/rules/always-follow.mdc.backup.1718000000000"
  = Some "foo".
Proof.
  refine (proj1 (proj2 (proj2
    (backup_precedes_decision
       (exampleOptions "smart")
       (exampleEnv "foo" positionalMerge remote noEdit)
       exampleTempDir (exampleFiles "foo") "foo" "foo" _ _ _ _ _)))).
  - apply exampleFetched.
  - reflexivity.
  - vm_compute. reflexivity.
  - vm_compute. reflexivity.
  - reflexivity.
Defined.

(** ** The outcome of a run *)

Section Outcome.

Variable options : Options.
Variable env : Env.
Variable tempDir : string.

Ltac on_world w :=
  destruct w as [fs0 log0 strategy0]; cbn [files log strategy] in *; subst.

(** Reading and backing up the local file never fails. *)
Lemma backupLocal_total w :
  exists b c w', backupLocal options env w = (Ok (b, c), w').
Proof.
  on_world w. unfold backupLocal. step.
  destruct (fs0 !! dest options) as [c|] eqn:E.
  - rewrite bool_decide_eq_true_2 by eauto. step. rewrite E.
    destruct (backup options); step; rewrite ?E; eauto.
  - rewrite bool_decide_eq_false_2 by (intros [? ?]; congruence). eauto.
Qed.

Lemma smartMerge_total remoteContent localContent w :
  exists w', smartMerge options env remoteContent localContent w = (Ok tt, w').
Proof.
  on_world w. unfold smartMerge. step.
  destruct (threeWayMerge env "" remoteContent localContent) as [m|r]; step;
    [eauto|].
  destruct (conflict r); step; eauto.
Qed.

(** The switch on the strategy always returns normally. *)
Lemma mergeByStrategy_total remoteContent localContent w :
  exists w',
    mergeByStrategy options env tempDir remoteContent localContent w = (Ok tt, w').
Proof.
  on_world w. unfold mergeByStrategy, manualMerge. step.
  destruct (String.eqb strategy0 "simple"); [eauto|].
  destruct (String.eqb strategy0 "smart");
    [|destruct (String.eqb strategy0 "manual"); eauto].
  match goal with
  | |- context [smartMerge _ _ _ _ ?w] =>
      destruct (smartMerge_total remoteContent localContent w) as [w1 ->]
  end.
  destruct w1 as [fs1 log1 s1].
  destruct (String.eqb s1 "manual"); [|eauto].
  match goal with
  | |- context [processSelection _ _ _ ?a ?r ?l ?w] =>
      destruct (processSelection_total options env tempDir a r l w)
        as [fs' [l' ->]]
  end. eauto.
Qed.

Lemma handleScenarios_total remoteContent localFileExists localContent w :
  exists w',
    handleScenarios options env tempDir remoteContent localFileExists
      localContent w = (Ok tt, w').
Proof.
  on_world w. unfold handleScenarios.
  destruct (negb localFileExists || force options); [step; eauto|].
  destruct (String.eqb localContent remoteContent); [step; eauto|].
  step.
  match goal with
  | |- context [mergeByStrategy _ _ _ _ _ ?w] =>
      destruct (mergeByStrategy_total remoteContent localContent w) as [w1 ->]
  end. eauto.
Qed.

Lemma pull_total remoteContent w :
  gitClone env = Returns tt ->
  gitCheckout env = Returns tt ->
  remoteFile env = Some remoteContent ->
  exists w', pull options env tempDir w = (Ok tt, w').
Proof.
  intros Hc Hk Hf. on_world w. unfold pull. rewrite Hc, Hk, Hf. step.
  destruct (destDirExists env); step.
  all: match goal with
       | |- context [backupLocal _ _ ?w] =>
           destruct (backupLocal_total w) as [b [c [w1 ->]]]
       end.
  all: apply handleScenarios_total.
Qed.

(** What went through the checks, git and the search for the remote file
    ends normally. *)
Lemma run_fetched fs :
  fetches options env = true -> (run options env tempDir fs).1 = Ok tt.
Proof.
  unfold fetches. rewrite !andb_true_iff, !negb_true_iff.
  intros [[[[[Hn Ht] Hr] Hc] Hk] Hf].
  destruct (gitClone env) as [|[]] eqn:Ec; [done|].
  destruct (gitCheckout env) as [|[]] eqn:Ek; [done|].
  destruct (remoteFile env) as [remoteContent|] eqn:Ef; [|done].
  rewrite run_main by done. unfold main.
  match goal with
  | |- context [mainCatch _ _ _ ?w] =>
      destruct (pull_total remoteContent w Ec Ek Ef) as [w1 Hp]
  end.
  by erewrite mainCatch_tryMain_ok by exact Hp.
Qed.

(** What did not get that far ends the process with status 1, has written
    nothing and has removed nothing outside the scratch directory. *)
Lemma run_not_fetched fs :
  fetches options env = false ->
  (run options env tempDir fs).1 = Exited 1
  /\ sameFilesExcept (under tempDir)
       {| files := fs; log := []; strategy := mergeStrategy options |}
       (run options env tempDir fs).2
  /\ Forall writesNothing (log (run options env tempDir fs).2).
Proof.
  intros H.
  assert (forall p, under tempDir p = false ->
            filter (fun kv => under tempDir kv.1 = false) fs !! p = fs !! p) as Hrm.
  { intros p Hp. by rewrite lookup_rmSync, Hp. }
  unfold fetches in H.
  unfold run, script, validateStrategy, main, mainCatch, tryMain, pull, reportError.
  assert (forall w : World,
            (forall p, under tempDir p = false -> files w !! p = fs !! p) ->
            Forall writesNothing (log w) ->
            (Exited 1 : Res unit, w).1 = Exited 1
            /\ sameFilesExcept (under tempDir)
                 {| files := fs; log := []; strategy := mergeStrategy options |}
                 (Exited 1 : Res unit, w).2
            /\ Forall writesNothing (log (Exited 1 : Res unit, w).2)) as Hend.
  { intros w Hw Hl. by repeat split. }
  destruct (nodeTooOld env);
    [step; apply Hend; [done | repeat constructor] |].
  destruct (private options
            && negb (truthy (orElse (token options) (GITHUB_TOKEN env))));
    [step; apply Hend; [done | repeat constructor] |].
  step.
  destruct (recognized (mergeStrategy options));
    [|step; apply Hend; [done | repeat constructor]].
  step.
  destruct (gitClone env) as [m|[]];
    [step; destruct (verbose options); step;
     (apply Hend; [exact Hrm | repeat constructor]) |].
  destruct (gitCheckout env) as [m|[]];
    [step; destruct (verbose options); step;
     (apply Hend; [exact Hrm | repeat constructor]) |].
  destruct (remoteFile env); [done|].
  step. apply Hend; [exact Hrm | repeat constructor].
Qed.

End Outcome.

(** ** Relations that every step keeps *)

Section Keeps.

Variable R : World -> World -> Prop.
Hypothesis R_refl : forall w, R w w.
Hypothesis R_trans : forall w1 w2 w3, R w1 w2 -> R w2 w3 -> R w1 w3.

Lemma keeps_same {A} (m : M A) : (forall w, (m w).2 = w) -> keeps R m.
Proof. intros H w. rewrite H. apply R_refl. Qed.

Lemma keeps_ret {A} (a : A) : keeps R (ret a).
Proof. by apply keeps_same. Qed.

Lemma keeps_throw {A} e : keeps R (@throw A e).
Proof. by apply keeps_same. Qed.

Lemma keeps_exit {A} c : keeps R (@exit A c).
Proof. by apply keeps_same. Qed.

Lemma keeps_call {A} (a : Answer A) : keeps R (call a).
Proof. destruct a; by apply keeps_same. Qed.

Lemma keeps_getStrategy : keeps R getStrategy.
Proof. by apply keeps_same. Qed.

Lemma keeps_existsSync p : keeps R (existsSync p).
Proof. by apply keeps_same. Qed.

Lemma keeps_readFileSync p : keeps R (readFileSync p).
Proof.
  apply keeps_same. intros w. unfold readFileSync. by destruct (files w !! p).
Qed.

Lemma keeps_bind {A B} (m : M A) (k : A -> M B) :
  keeps R m -> (forall a, keeps R (k a)) -> keeps R (bind m k).
Proof.
  intros Hm Hk w. unfold bind. specialize (Hm w).
  destruct (m w) as [[a|e|c] w1]; try done.
  eapply R_trans; [exact Hm | apply Hk].
Qed.

Lemma keeps_try_catch {A} (m : M A) (h : string -> M A) :
  keeps R m -> (forall e, keeps R (h e)) -> keeps R (try_catch m h).
Proof.
  intros Hm Hh w. unfold try_catch. specialize (Hm w).
  destruct (m w) as [[a|e|c] w1]; try done.
  eapply R_trans; [exact Hm | apply Hh].
Qed.

Lemma keeps_try_finally {A} (m : M A) (f : M unit) :
  keeps R m -> keeps R f -> keeps R (try_finally m f).
Proof.
  intros Hm Hf w. unfold try_finally. specialize (Hm w).
  destruct (m w) as [r w1]. specialize (Hf w1).
  assert (R w (f w1).2) as Hboth by (eapply R_trans; eassumption).
  destruct r as [a|e|c]; [| |done];
    by destruct (f w1) as [[[]|e'|c'] w2].
Qed.

(** The branches may use what the test gave. *)
Lemma keeps_if {A} (b : bool) (m1 m2 : M A) :
  (b = true -> keeps R m1) -> (b = false -> keeps R m2) ->
  keeps R (if b then m1 else m2).
Proof. destruct b; auto. Qed.

End Keeps.

(** ** The files a run leaves alone *)

Lemma sameFilesExcept_refl Q w : sameFilesExcept Q w w.
Proof. by intros p Hp. Qed.

Lemma sameFilesExcept_trans Q w1 w2 w3 :
  sameFilesExcept Q w1 w2 -> sameFilesExcept Q w2 w3 -> sameFilesExcept Q w1 w3.
Proof. intros H1 H2 p Hp. by rewrite H2, H1. Qed.

Lemma keeps_files_mono (Q1 Q2 : string -> bool) {A} (m : M A) :
  (forall p, Q2 p = false -> Q1 p = false) ->
  keeps (sameFilesExcept Q1) m -> keeps (sameFilesExcept Q2) m.
Proof. intros H Hm w p Hp. apply Hm, H, Hp. Qed.

Lemma prefix_append a b : String.prefix a (a +:+ b) = true.
Proof.
  induction a as [|c a IH]; [by destruct b|].
  rewrite append_String. cbn [String.prefix].
  destruct (ascii_dec c c); [exact IH | congruence].
Qed.

Lemma under_below dir name : under dir (dir +:+ "/" +:+ name) = true.
Proof.
  unfold under. apply orb_true_iff. right.
  rewrite <- append_assoc. apply prefix_append.
Qed.

Section Frame.

Variable options : Options.
Variable env : Env.
Variable tempDir : string.
Variable Q : string -> bool.

Lemma keeps_files_emit e : keeps (sameFilesExcept Q) (emit e).
Proof. by intros w p Hp. Qed.

Lemma keeps_files_setStrategy s : keeps (sameFilesExcept Q) (setStrategy s).
Proof. by intros w p Hp. Qed.

Lemma keeps_files_writeFileSync q c :
  Q q = true -> keeps (sameFilesExcept Q) (writeFileSync q c).
Proof.
  intros Hq w p Hp. cbn. apply lookup_insert_ne. congruence.
Qed.

Lemma keeps_files_userSaves q c :
  Q q = true -> keeps (sameFilesExcept Q) (userSaves q c).
Proof.
  intros Hq w p Hp. cbn. apply lookup_insert_ne. congruence.
Qed.

Lemma keeps_files_copyFileSync src q :
  Q q = true -> keeps (sameFilesExcept Q) (copyFileSync src q).
Proof.
  intros Hq w p Hp. unfold copyFileSync.
  destruct (files w !! src); [|done]. cbn. apply lookup_insert_ne. congruence.
Qed.

Lemma keeps_files_rmSync dir :
  (forall p, Q p = false -> under dir p = false) ->
  keeps (sameFilesExcept Q) (rmSync dir).
Proof. intros H w p Hp. cbn. by rewrite lookup_rmSync, (H p Hp). Qed.

End Frame.

Section RunFiles.

Variable options : Options.
Variable env : Env.
Variable tempDir : string.

(** [Q] holds the paths that the merge may write. *)
Variable Q : string -> bool.
Hypothesis Q_dest : Q (dest options) = true.
Hypothesis Q_scratch : forall p, Q p = false -> under tempDir p = false.

Lemma Q_tempFilePath : Q (tempFilePath tempDir) = true.
Proof.
  destruct (Q (tempFilePath tempDir)) eqn:E; [done|].
  apply Q_scratch in E.
  pose proof (under_below tempDir "manual_merge.mdc") as U.
  change (under tempDir (tempFilePath tempDir) = true) in U. congruence.
Qed.

Abbreviation R := (sameFilesExcept Q).

Lemma frame_refl w : R w w.
Proof. apply sameFilesExcept_refl. Qed.

Lemma frame_trans w1 w2 w3 : R w1 w2 -> R w2 w3 -> R w1 w3.
Proof. apply sameFilesExcept_trans. Qed.

(** Breaks a goal [keeps R m] along the structure of [m]. *)
Ltac files_step :=
  first
    [ apply (keeps_bind R frame_trans); [|intros ?]
    | apply (keeps_try_catch R frame_trans); [|intros ?]
    | apply (keeps_try_finally R frame_trans)
    | apply (keeps_if R); intros ?
    | apply keeps_files_emit
    | apply keeps_files_setStrategy
    | apply keeps_files_writeFileSync;
        first [apply Q_dest | apply Q_tempFilePath]
    | apply keeps_files_userSaves; apply Q_tempFilePath
    | apply keeps_files_rmSync; apply Q_scratch
    | apply (keeps_ret R frame_refl)
    | apply (keeps_exit R frame_refl)
    | apply (keeps_call R frame_refl)
    | apply (keeps_getStrategy R frame_refl)
    | apply (keeps_existsSync R frame_refl)
    | apply (keeps_readFileSync R frame_refl)
    | match goal with
      | |- keeps _ (match ?x with _ => _ end) => destruct x
      end ].

Lemma keeps_files_cleanup : keeps R (cleanup tempDir).
Proof. unfold cleanup. repeat files_step. Qed.

Lemma keeps_files_reportError error : keeps R (reportError options error).
Proof. unfold reportError. repeat files_step. Qed.

Lemma keeps_files_processSelection a remoteContent localContent :
  keeps R (processSelection options env tempDir a remoteContent localContent).
Proof. unfold processSelection, editManually. repeat files_step. Qed.

Lemma keeps_files_mergeByStrategy remoteContent localContent :
  keeps R (mergeByStrategy options env tempDir remoteContent localContent).
Proof.
  unfold mergeByStrategy, smartMerge, manualMerge. repeat files_step.
  all: apply keeps_files_processSelection.
Qed.

Lemma keeps_files_handleScenarios remoteContent localFileExists localContent :
  keeps R (handleScenarios options env tempDir remoteContent localFileExists
             localContent).
Proof.
  unfold handleScenarios. repeat files_step.
  all: first [apply keeps_files_cleanup | apply keeps_files_mergeByStrategy
             | apply keeps_files_processSelection].
Qed.

Lemma keeps_files_tryMain body :
  keeps R body -> keeps R (tryMain options tempDir body).
Proof.
  intros H. unfold tryMain. repeat files_step.
  all: first [exact H | apply keeps_files_reportError | apply keeps_files_cleanup].
Qed.

Lemma keeps_files_mainCatch m :
  keeps R m -> keeps R (mainCatch options tempDir m).
Proof.
  intros H. unfold mainCatch. repeat files_step.
  all: first [exact H | apply keeps_files_reportError | apply keeps_files_cleanup].
Qed.

(** The whole script writes the destination, the backup and the scratch
    directory, and nothing else. *)
Lemma keeps_files_script :
  (backup options = true -> Q (backupPath options env) = true) ->
  keeps R (script options env tempDir).
Proof.
  intros Hb.
  assert (keeps R (pull options env tempDir)) as Hpull.
  { unfold pull, backupLocal.
    repeat first [ apply keeps_files_copyFileSync; auto
                 | apply keeps_files_handleScenarios
                 | files_step ]. }
  unfold script, validateStrategy, main.
  repeat first [ apply keeps_files_mainCatch, keeps_files_tryMain, Hpull
               | files_step ].
Qed.

End RunFiles.

(** ** More properties of the script *)

Section WholeRun.

Variable options : Options.
Variable env : Env.
Variable tempDir : string.

Lemma mergePaths_dest : mergePaths options tempDir (dest options) = true.
Proof. unfold mergePaths. by rewrite String.eqb_refl. Qed.

Lemma mergePaths_under p :
  mergePaths options tempDir p = false -> under tempDir p = false.
Proof. unfold mergePaths. by intros [_ ?]%orb_false_iff. Qed.

(** The run that finds no local file. *)
Lemma run_created fs remoteContent :
  Fetched options env remoteContent ->
  recognized (mergeStrategy options) = true ->
  fs !! dest options = None ->
  under tempDir (dest options) = false ->
  run options env tempDir fs
  = (Ok tt,
     {| files := filter (fun kv => under tempDir kv.1 = false)
                   (<[dest options := remoteContent]>
                      (filter (fun kv => under tempDir kv.1 = false) fs));
        log := [execGitClone; execGitCheckout]
               ++ (if destDirExists env then [] else [spinnerInfo CreatedDirectory])
               ++ [writeFile (dest options) remoteContent;
                   spinnerSucceed CreatedNew;
                   spinnerSucceed Pulled];
        strategy := mergeStrategy options |}).
Proof.
  intros [Hn Ht Hc Hk Hf] Hr Hl Hu.
  rewrite run_main by done. unfold main.
  erewrite (mainCatch_tryMain_ok options tempDir _ _
              {| files := <[dest options := remoteContent]>
                            (filter (fun kv => under tempDir kv.1 = false) fs);
                 log := [execGitClone; execGitCheckout]
                        ++ (if destDirExists env then []
                            else [spinnerInfo CreatedDirectory])
                        ++ [writeFile (dest options) remoteContent;
                            spinnerSucceed CreatedNew;
                            spinnerSucceed Pulled];
                 strategy := mergeStrategy options |}); [reflexivity|].
  unfold pull, backupLocal, handleScenarios. rewrite Hc, Hk, Hf. step.
  destruct (destDirExists env); step;
    rewrite lookup_rmSync, Hu, Hl,
      bool_decide_eq_false_2 by (intros [? ?]; congruence);
    by step.
Qed.

Lemma runPaths_dest : runPaths options env tempDir (dest options) = true.
Proof. unfold runPaths, mergePaths. by rewrite String.eqb_refl. Qed.

Lemma runPaths_under p :
  runPaths options env tempDir p = false -> under tempDir p = false.
Proof.
  unfold runPaths, mergePaths.
  by intros [[_ ?]%orb_false_iff _]%orb_false_iff.
Qed.

Lemma runPaths_backupPath :
  backup options = true ->
  runPaths options env tempDir (backupPath options env) = true.
Proof.
  intros Hb. unfold runPaths. rewrite Hb, String.eqb_refl.
  apply orb_true_r.
Qed.

(** X3.  Whatever happens, a run leaves every file alone but the
    destination, the scratch directory and, when backups are on, the backup
    of this run. *)
Theorem run_writes_only_its_paths fs p :
  runPaths options env tempDir p = false ->
  files (run options env tempDir fs).2 !! p = fs !! p.
Proof.
  intros Hp.
  apply (keeps_files_script options env tempDir (runPaths options env tempDir)
           runPaths_dest runPaths_under runPaths_backupPath
           {| files := fs; log := []; strategy := mergeStrategy options |} p Hp).
Qed.

Lemma mainCatch_tryMain_inv body w :
  (mainCatch options tempDir (tryMain options tempDir body) w).1 = Ok tt ->
  exists w1,
    mainCatch options tempDir (tryMain options tempDir body) w
    = (Ok tt,
       {| files := filter (fun kv => under tempDir kv.1 = false) (files w1);
          log := log w1;
          strategy := strategy w1 |}).
Proof.
  unfold mainCatch, tryMain, reportError. step.
  destruct (body w) as [[[]|e|c] w1]; step.
  - intros _. by exists w1.
  - destruct (verbose options); step; done.
  - done.
Qed.

(** X4.  After a run that ends normally nothing is left in the scratch
    directory. *)
Theorem scratch_directory_left_empty fs p :
  (run options env tempDir fs).1 = Ok tt ->
  under tempDir p = true ->
  files (run options env tempDir fs).2 !! p = None.
Proof.
  intros Hok Hp.
  assert (fetches options env = true) as Hf.
  { destruct (fetches options env) eqn:E; [done|].
    apply (run_not_fetched options env tempDir fs) in E as [E _]. congruence. }
  unfold fetches in Hf. rewrite !andb_true_iff, !negb_true_iff in Hf.
  destruct Hf as [[[[[Hn Ht] Hr] _] _] _].
  rewrite run_main in Hok |- * by done.
  destruct (mainCatch_tryMain_inv _ _ Hok) as [w1 E].
  unfold main. rewrite E. cbn [snd files]. by rewrite lookup_rmSync, Hp.
Qed.

(** X6.  For a private repository a token is required: without a non-empty
    [--token] and a non-empty [GITHUB_TOKEN] (an empty one counts as
    missing) the process ends with status 1 before anything is done, and the
    error is printed in no other case. *)
Theorem token_required_for_private fs :
  nodeTooOld env = false ->
  (private options = true
   /\ truthy (token options) = false
   /\ truthy (GITHUB_TOKEN env) = false
   -> run options env tempDir fs
      = (Exited 1,
         {| files := fs;
            log := [consoleError TokenRequired];
            strategy := mergeStrategy options |}))
  /\ (In (consoleError TokenRequired) (log (run options env tempDir fs).2)
      -> private options = true
         /\ truthy (token options) = false
         /\ truthy (GITHUB_TOKEN env) = false).
Proof.
  intros Hn. split.
  - intros [Hp [Ht He]]. unfold run, script.
    rewrite Hn, Hp. unfold orElse. rewrite Ht, He. by step.
  - intros Hin.
    destruct (private options
              && negb (truthy (orElse (token options) (GITHUB_TOKEN env))))
      eqn:E.
    + apply andb_true_iff in E as [Hp Ht]. apply negb_true_iff in Ht.
      unfold orElse in Ht.
      destruct (truthy (token options)) eqn:E1; [congruence|]. done.
    + exfalso. destruct (recognized (mergeStrategy options)) eqn:Hr.
      * rewrite run_main in Hin by done.
        assert (forall e, mainEvent e -> e <> consoleError TokenRequired) as HP.
        { intros e H ->. exact H. }
        destruct (appends_mainCatch options tempDir _ HP _
                    (appends_main options env tempDir _ HP)
                    {| files := filter (fun kv => under tempDir kv.1 = false) fs;
                       log := []; strategy := mergeStrategy options |})
          as [l [El Fl]].
        rewrite El in Hin. cbn [log app] in Hin.
        rewrite Forall_forall in Fl. apply list_elem_of_In in Hin.
        by apply (Fl _ Hin).
      * rewrite run_invalid in Hin by done. cbn in Hin.
        intuition discriminate.
Qed.

(** X8.  With [--force] an existing local file is replaced by the remote
    text as it is: the package is not called and the user is not asked. *)
Theorem forced_pull_overwrites fs remoteContent localContent :
  Fetched options env remoteContent ->
  recognized (mergeStrategy options) = true ->
  fs !! dest options = Some localContent ->
  under tempDir (dest options) = false ->
  force options = true ->
  (run options env tempDir fs).1 = Ok tt
  /\ files (run options env tempDir fs).2 !! dest options = Some remoteContent
  /\ log (run options env tempDir fs).2
     = log (backedUp options env tempDir fs localContent)
       ++ [writeFile (dest options) remoteContent;
           spinnerSucceed Overwrote;
           spinnerSucceed Pulled].
Proof.
  intros Hf Hr Hl Hu Hn.
  rewrite (run_forced options env tempDir fs remoteContent localContent) by done.
  cbn [fst snd files log]. repeat split.
  by rewrite lookup_rmSync, Hu, lookup_insert_eq.
Qed.

(** X9.  Pulling again after the first pull, with the remote text unchanged,
    finds the file up to date: the destination keeps the remote text and no
    step of a merge is taken. *)
Theorem second_pull_is_up_to_date fs remoteContent :
  Fetched options env remoteContent ->
  recognized (mergeStrategy options) = true ->
  fs !! dest options = None ->
  under tempDir (dest options) = false ->
  force options = false ->
  let fs1 := files (run options env tempDir fs).2 in
  (run options env tempDir fs1).1 = Ok tt
  /\ files (run options env tempDir fs1).2 !! dest options = Some remoteContent
  /\ Forall (fun e => isMergeWork e = false) (log (run options env tempDir fs1).2)
  /\ In (spinnerSucceed UpToDate) (log (run options env tempDir fs1).2).
Proof.
  intros Hf Hr Hl Hu Hn fs1.
  assert (fs1 !! dest options = Some remoteContent) as H1.
  { unfold fs1. rewrite (run_created fs remoteContent) by done.
    cbn [snd files]. by rewrite lookup_rmSync, Hu, lookup_insert_eq. }
  rewrite (run_same options env tempDir fs1 remoteContent) by done.
  cbn [fst snd files log]. repeat split.
  - rewrite !lookup_rmSync, Hu. by apply backedUp_dest.
  - apply Forall_app. split; [apply backedUp_log | by repeat constructor].
  - apply in_or_app. right. by left.
Qed.

End WholeRun.

Section Repeated.

Variable options : Options.
Variable env : Env.
Variable tempDir : string.

Lemma mergedContent_neq remoteContent localContent :
  mergedContent remoteContent localContent <> remoteContent.
Proof.
  unfold mergedContent. apply append_neq.
  rewrite append_String. discriminate.
Qed.

Lemma tempFilePath_neq :
  under tempDir (dest options) = false -> tempFilePath tempDir <> dest options.
Proof.
  intros Hu E. rewrite <- E in Hu.
  pose proof (under_below tempDir "manual_merge.mdc") as U.
  change (under tempDir (tempFilePath tempDir) = true) in U. congruence.
Qed.

(** X10.  The simple strategy piles up: pulling twice with the remote text
    unchanged leaves the remote text twice, each time above the separator,
    and then the local text. *)
Theorem simple_pull_twice_duplicates fs remoteContent localContent :
  Merging options env tempDir fs remoteContent localContent ->
  mergeStrategy options = "simple" ->
  let fs1 := files (run options env tempDir fs).2 in
  fs1 !! dest options
  = Some (remoteContent +:+ separator +:+ localContent)
  /\ files (run options env tempDir fs1).2 !! dest options
     = Some (remoteContent +:+ separator
             +:+ remoteContent +:+ separator +:+ localContent).
Proof.
  intros Hm Hs fs1.
  assert (recognized (mergeStrategy options) = true) as Hr by by rewrite Hs.
  assert (fs1 !! dest options = Some (mergedContent remoteContent localContent))
    as H1.
  { unfold fs1.
    erewrite run_merge_ok; [ | done | done | by eapply mergeByStrategy_simple ].
    apply lookup_written, Hm. }
  split; [exact H1|].
  assert (Merging options env tempDir fs1 remoteContent
            (mergedContent remoteContent localContent)) as Hm1.
  { destruct Hm as [Hf Hl Hu Hn Hd].
    constructor; [done | done | done | done | apply mergedContent_neq]. }
  erewrite run_merge_ok; [ | done | done | by eapply mergeByStrategy_simple ].
  apply lookup_written, Hm.
Qed.

(** X11.  A manual merge that is not finished, because the editor cannot be
    opened or the user does not confirm, leaves the local text in the
    destination; the script reports the failure and all the same ends
    normally with the success message. *)
Theorem unfinished_manual_merge_keeps_local fs remoteContent localContent message :
  Merging options env tempDir fs remoteContent localContent ->
  mergeStrategy options = "smart" ->
  threeWayMerge env "" remoteContent localContent = Raises message ->
  action env = manual ->
  match editor env (generateManualMergeFile remoteContent localContent) with
  | Raises _ => True
  | Returns _ => confirmed env = false
  end ->
  (run options env tempDir fs).1 = Ok tt
  /\ files (run options env tempDir fs).2 !! dest options = Some localContent
  /\ (exists m, In (spinnerFail m) (log (run options env tempDir fs).2))
  /\ In (spinnerSucceed Pulled) (log (run options env tempDir fs).2).
Proof.
  intros Hm Hs Hr Ha He.
  assert (recognized (mergeStrategy options) = true) as Hrec by by rewrite Hs.
  pose proof (mergeByStrategy_smart_raises options env tempDir remoteContent
                localContent (backedUp options env tempDir fs localContent)
                message Hs Hr) as E.
  rewrite Ha in E.
  assert (files (backedUp options env tempDir fs localContent) !! dest options
          = Some localContent) as Hd by (apply backedUp_dest; apply Hm).
  pose proof (tempFilePath_neq (destOutside _ _ _ _ _ _ Hm)) as Hne.
  destruct (editor env (generateManualMergeFile remoteContent localContent))
    as [m|edited] eqn:Ed.
  - erewrite processSelection_manual_raises in E by done.
    erewrite run_merge_ok; [ | done | done | exact E ].
    cbn [fst snd files log]. repeat split.
    + rewrite lookup_rmSync, (destOutside _ _ _ _ _ _ Hm).
      by rewrite lookup_insert_ne.
    + exists (ErrorOpeningEditor m).
      apply in_or_app. left. apply in_or_app. right. cbn. tauto.
    + apply in_or_app. right. by left.
  - erewrite processSelection_manual_cancelled in E by done.
    erewrite run_merge_ok; [ | done | done | exact E ].
    cbn [fst snd files log]. repeat split.
    + rewrite lookup_rmSync, (destOutside _ _ _ _ _ _ Hm).
      by rewrite !lookup_insert_ne.
    + exists ManualMergeCancelled.
      apply in_or_app. left. apply in_or_app. right. cbn. tauto.
    + apply in_or_app. right. by left.
Qed.

End Repeated.

(** X12.  The backups of two pulls are the same file exactly when the two
    pulls were made at the same time, and a backup is never the destination
    itself. *)
Theorem backupPath_inj options env1 env2 :
  (backupPath options env1 = backupPath options env2 <-> now env1 = now env2)
  /\ backupPath options env1 <> dest options.
Proof.
  split; [split|].
  - unfold backupPath. intros H.
    apply String.app_inj, String.app_inj in H.
    by apply pretty_Z_inj.
  - unfold backupPath. by intros ->.
  - apply backupPath_neq.
Qed.

(** ** The text with conflict markers, read back *)

Lemma unlines_cons l l' ls :
  unlines (l :: l' :: ls) = l +:+ String "010" (unlines (l' :: ls)).
Proof. reflexivity. Qed.

(** Joining the lines of a text gives the text back. *)
Lemma unlines_lines s : unlines (lines s) = s.
Proof.
  induction s as [|c s IH]; [done|]. cbn [lines].
  destruct (lines_cons s) as [l [ls E]]. rewrite E in IH |- *.
  destruct (Ascii.eqb c "010") eqn:Ec.
  - apply Ascii.eqb_eq in Ec as ->. by rewrite unlines_cons, IH.
  - destruct ls as [|l' ls].
    + cbn in IH |- *. by rewrite IH.
    + rewrite unlines_cons in IH |- *. by rewrite append_String, IH.
Qed.

Lemma lines_inj s t : lines s = lines t -> s = t.
Proof. intros H. by rewrite <- (unlines_lines s), H, unlines_lines. Qed.

(** A list is cut in one way only at the first occurrence of [m]. *)
Lemma app_cons_first_inj {A} (m : A) (xs xs' ys ys' : list A) :
  ~ In m xs -> ~ In m xs' ->
  xs ++ m :: ys = xs' ++ m :: ys' -> xs = xs' /\ ys = ys'.
Proof.
  revert xs'. induction xs as [|x xs IH]; intros [|x' xs'] Hx Hx' E;
    cbn in *.
  - by injection E.
  - injection E as <- _. tauto.
  - injection E as -> _. tauto.
  - injection E as -> E. destruct (IH xs') as [-> ->]; tauto.
Qed.

(** X13.  The text written on a conflict can be read back: when the remote
    texts have no line [=======] of their own, two texts with conflict
    markers are the same only for the same remote and the same local
    text. *)
Theorem generateConflictMarkers_inj remoteContent localContent
    remoteContent' localContent' :
  ~ In middleMarker (lines remoteContent) ->
  ~ In middleMarker (lines remoteContent') ->
  generateConflictMarkers remoteContent localContent
  = generateConflictMarkers remoteContent' localContent' ->
  remoteContent = remoteContent' /\ localContent = localContent'.
Proof.
  intros Hr Hr' E. apply (f_equal lines) in E.
  rewrite !lines_generateConflictMarkers in E. injection E as E.
  apply app_cons_first_inj in E as [E1 E2]; [|done..].
  apply app_inv_tail in E2. split; by apply lines_inj.
Qed.

(** Without that condition the text can be read in two ways. *)
Example generateConflictMarkers_ambiguous :
  generateConflictMarkers "a
=======
b" "c"
  = generateConflictMarkers "a" "b
=======
c".
Proof. reflexivity. Qed.

(** ** The command dispatcher *)

Lemma commands_other c :
  c <> "pull" -> c <> "push" -> commands c = Inherited \/ commands c = Undefined.
Proof.
  intros H1 H2. unfold commands.
  apply String.eqb_neq in H1, H2. rewrite H1, H2.
  destruct (existsb _ _); auto.
Qed.

(** X14.  The dispatcher loads a script for the commands [pull] and [push]
    only: the script of that name below [bin], with [process.argv] set to
    the executable, the path of the script and the arguments that follow
    the command; the exit status is then the one of the script, or 1 when
    loading it raises.  With any other command, or none, the process ends
    with status 1 and no script is loaded. *)
Theorem dispatch_loads_pull_or_push dirname execPath argvTail load :
  let command := head (drop 1 argvTail) in
  let r := dispatch dirname execPath argvTail load in
  (forall c, command = Some c -> c = "pull" \/ c = "push" ->
     let scriptPath := dirname +:+ "/bin/rules-" +:+ c +:+ ".js" in
     let argv := execPath :: scriptPath :: drop 2 argvTail in
     r.1 = match load scriptPath argv with
           | Ok _ => None
           | Thrown _ => Some 1%Z
           | Exited code => Some code
           end
     /\ exists rest, r.2 = setArgv argv :: requireScript scriptPath :: rest)
  /\ ((forall c, command = Some c -> c <> "pull" /\ c <> "push") ->
      r.1 = Some 1%Z
      /\ Forall (fun e => forall p a, e <> requireScript p /\ e <> setArgv a) r.2).
Proof.
  intros command r. unfold r, dispatch. fold command. split.
  - intros c Hc Hpp. rewrite Hc.
    assert (drop 1 (drop 1 argvTail) = drop 2 argvTail) as ->
      by by rewrite drop_drop.
    destruct Hpp as [-> | ->]; cbn [String.eqb Ascii.eqb Bool.eqb commands].
    + set (sp := dirname +:+ "/bin/rules-pull.js").
      change (joinDirname dirname "./bin/rules-pull.js") with sp.
      change (dirname +:+ "/bin/rules-" +:+ "pull" +:+ ".js") with sp.
      destruct (load sp _); eauto.
    + set (sp := dirname +:+ "/bin/rules-push.js").
      change (joinDirname dirname "./bin/rules-push.js") with sp.
      change (dirname +:+ "/bin/rules-" +:+ "push" +:+ ".js") with sp.
      destruct (load sp _); eauto.
  - intros H. destruct command as [c|]; [|split; [done | repeat constructor; done]].
    destruct (H c eq_refl) as [H1 H2].
    destruct (String.eqb c ""); [split; [done | repeat constructor; done]|].
    destruct (commands_other c H1 H2) as [-> | ->];
      split; try done; repeat constructor; done.
Qed.

Section Interaction.

Variable options : Options.
Variable env : Env.
Variable tempDir : string.



End Interaction.

(** ** Runs on a machine where calls can fail *)

(** *** Where a computation leaves the world *)

Section Wp.

Context {A : Type}.
Variable N : A -> World -> Prop.
Variable T : string -> World -> Prop.
Variable E : Z -> World -> Prop.

Lemma wp_bind {B} (m : M B) (k : B -> M A) w :
  wp m (fun b => wp (k b) N T E) T E w -> wp (bind m k) N T E w.
Proof. unfold wp, bind. by destruct (m w) as [[b|e|c] w']. Qed.

Lemma wp_try_catch (m : M A) (h : string -> M A) w :
  wp m N (fun e => wp (h e) N T E) E w -> wp (try_catch m h) N T E w.
Proof. unfold wp, try_catch. by destruct (m w) as [[a|e|c] w']. Qed.

Lemma wp_try_finally (m : M A) (f : M unit) w :
  wp m (fun a => wp f (fun _ => N a) T E) (fun e => wp f (fun _ => T e) T E) E w ->
  wp (try_finally m f) N T E w.
Proof.
  unfold wp, try_finally.
  destruct (m w) as [[a|e|c] w']; [| |done];
    by destruct (f w') as [[[]|e'|c'] w''].
Qed.

Lemma wp_ret a w : N a w -> wp (ret a) N T E w.
Proof. done. Qed.

Lemma wp_exit c w : E c w -> wp (exit c) N T E w.
Proof. done. Qed.

Lemma wp_call (a : Answer A) w :
  (forall e, a = Raises e -> T e w) ->
  (forall x, a = Returns x -> N x w) ->
  wp (call a) N T E w.
Proof. destruct a; unfold wp; cbn; auto. Qed.

(** What holds of every world that [R] relates to [w] holds where a
    computation that carries on with [R] leaves it. *)
Lemma wp_carriesOn R (m : M A) w :
  carriesOn R m ->
  (forall a w', R w w' -> N a w') ->
  (forall e w', R w w' -> T e w') ->
  wp m N T E w.
Proof.
  intros H HN HT. specialize (H w). unfold wp.
  destruct (m w) as [[a|e|c] w']; auto. done.
Qed.

End Wp.

Section WpUnit.

Variable N : unit -> World -> Prop.
Variable T : string -> World -> Prop.
Variable E : Z -> World -> Prop.

Lemma wp_emit e w :
  N tt {| files := files w; log := log w ++ [e]; strategy := strategy w |} ->
  wp (emit e) N T E w.
Proof. done. Qed.

Lemma wp_setStrategy s w :
  N tt {| files := files w; log := log w; strategy := s |} ->
  wp (setStrategy s) N T E w.
Proof. done. Qed.

Lemma wp_reportError options error w :
  (forall w', files w' = files w ->
     log w' = log w \/ log w' = log w ++ [consoleError (ErrorObject error)] ->
     strategy w' = strategy w -> N tt w') ->
  wp (reportError options error) N T E w.
Proof.
  intros H. unfold reportError. destruct (verbose options).
  - apply wp_emit, H; auto.
  - apply wp_ret, H; auto.
Qed.

Variable host : Host.

Lemma wp_attempt c w :
  (forall r, refuses host w c = Some r -> T (reason r) w) ->
  (refuses host w c = None -> N tt w) ->
  wp (Failing.attempt host c) N T E w.
Proof.
  intros HT HN. unfold wp, Failing.attempt.
  destruct (refuses host w c); auto.
Qed.

Lemma wp_rmSync dir w :
  (forall r, refuses host w (fsRemove dir) = Some r ->
     T (reason r)
       {| files := filter (fun kv => negb (under dir kv.1 && removed r kv.1))
                     (files w);
          log := log w; strategy := strategy w |}) ->
  (refuses host w (fsRemove dir) = None ->
     N tt {| files := filter (fun kv => under dir kv.1 = false) (files w);
             log := log w; strategy := strategy w |}) ->
  wp (Failing.rmSync host dir) N T E w.
Proof.
  intros HT HN. unfold wp, Failing.rmSync.
  destruct (refuses host w (fsRemove dir)); auto.
Qed.

Lemma wp_writeFileSync p content w :
  (forall r, refuses host w (fsWrite p) = Some r ->
     T (reason r) (Failing.damaged p r w)) ->
  (forall e, refuses host w (fsWrite p) = None ->
     directory host p = true -> T e w) ->
  (refuses host w (fsWrite p) = None -> directory host p = false ->
     N tt {| files := <[p := content]> (files w);
             log := log w ++ [writeFile p content];
             strategy := strategy w |}) ->
  wp (Failing.writeFileSync host p content) N T E w.
Proof.
  intros HT HD HN. unfold wp, Failing.writeFileSync.
  destruct (refuses host w (fsWrite p)); [auto|].
  destruct (directory host p); auto.
Qed.

Lemma wp_copyFileSync src dst w :
  (forall r, refuses host w (fsCopy src dst) = Some r ->
     T (reason r) (Failing.damaged dst r w)) ->
  (forall e, refuses host w (fsCopy src dst) = None -> T e w) ->
  (forall c, refuses host w (fsCopy src dst) = None ->
     directory host src = false -> directory host dst = false ->
     files w !! src = Some c ->
     N tt {| files := <[dst := c]> (files w);
             log := log w ++ [copyFile src dst];
             strategy := strategy w |}) ->
  wp (Failing.copyFileSync host src dst) N T E w.
Proof.
  intros HT HD HN. unfold wp, Failing.copyFileSync.
  destruct (refuses host w (fsCopy src dst)); [auto|].
  destruct (directory host src) eqn:Es; [cbn; auto|].
  destruct (directory host dst) eqn:Ed; [cbn; auto|]. cbn.
  destruct (files w !! src); auto.
Qed.

End WpUnit.

Lemma wp_existsSync host p (N : bool -> World -> Prop) T E w :
  N (directory host p || bool_decide (is_Some (files w !! p))) w ->
  wp (Failing.existsSync host p) N T E w.
Proof. done. Qed.

Lemma wp_getStrategy (N : string -> World -> Prop) T E w :
  N (strategy w) w -> wp getStrategy N T E w.
Proof. done. Qed.

Lemma wp_readFileSync host p (N : string -> World -> Prop) T E w :
  (forall r, refuses host w (fsRead p) = Some r -> T (reason r) w) ->
  (forall e, refuses host w (fsRead p) = None ->
     directory host p = true \/ files w !! p = None -> T e w) ->
  (forall c, refuses host w (fsRead p) = None -> directory host p = false ->
     files w !! p = Some c -> N c w) ->
  wp (Failing.readFileSync host p) N T E w.
Proof.
  intros HT HD HN. unfold wp, Failing.readFileSync.
  destruct (refuses host w (fsRead p)); [auto|].
  destruct (directory host p); [auto|].
  destruct (files w !! p); auto.
Qed.

(** *** Computations that carry on *)

Lemma lookup_partly_removed dir (f : string -> bool) (fs : gmap string string) p :
  under dir p = false ->
  filter (fun kv => negb (under dir kv.1 && f kv.1)) fs !! p = fs !! p.
Proof.
  intros Hp. rewrite map_lookup_filter.
  destruct (fs !! p) as [c|] eqn:E; simpl; [|done].
  case_guard as G; simpl in *; [done|]. by rewrite Hp in G.
Qed.

Section CarriesOn.

Variable R : World -> World -> Prop.
Hypothesis R_refl : forall w, R w w.
Hypothesis R_trans : forall w1 w2 w3, R w1 w2 -> R w2 w3 -> R w1 w3.

Lemma carriesOn_ret {A} (a : A) : carriesOn R (ret a).
Proof. intros w. apply R_refl. Qed.

Lemma carriesOn_call {A} (a : Answer A) : carriesOn R (call a).
Proof. intros w. destruct a; apply R_refl. Qed.

Lemma carriesOn_getStrategy : carriesOn R getStrategy.
Proof. intros w. apply R_refl. Qed.

Lemma carriesOn_existsSync host p : carriesOn R (Failing.existsSync host p).
Proof. intros w. apply R_refl. Qed.

Lemma carriesOn_attempt host c : carriesOn R (Failing.attempt host c).
Proof.
  intros w. unfold Failing.attempt. destruct (refuses host w c); apply R_refl.
Qed.

Lemma carriesOn_readFileSync host p : carriesOn R (Failing.readFileSync host p).
Proof.
  intros w. unfold Failing.readFileSync.
  destruct (refuses host w (fsRead p)); [apply R_refl|].
  destruct (directory host p); [apply R_refl|].
  destruct (files w !! p); apply R_refl.
Qed.

Lemma carriesOn_bind {A B} (m : M A) (k : A -> M B) :
  carriesOn R m -> (forall a, carriesOn R (k a)) -> carriesOn R (bind m k).
Proof.
  intros Hm Hk w. unfold bind. specialize (Hm w).
  destruct (m w) as [[a|e|c] w1]; try done.
  specialize (Hk a w1). destruct (k a w1) as [[b|e|c] w2]; try done;
    eapply R_trans; eassumption.
Qed.

Lemma carriesOn_try_catch {A} (m : M A) (h : string -> M A) :
  carriesOn R m -> (forall e, carriesOn R (h e)) -> carriesOn R (try_catch m h).
Proof.
  intros Hm Hh w. unfold try_catch. specialize (Hm w).
  destruct (m w) as [[a|e|c] w1]; try done.
  specialize (Hh e w1). destruct (h e w1) as [[b|e'|c] w2]; try done;
    eapply R_trans; eassumption.
Qed.

Lemma carriesOn_if {A} (b : bool) (m1 m2 : M A) :
  carriesOn R m1 -> carriesOn R m2 -> carriesOn R (if b then m1 else m2).
Proof. by destruct b. Qed.

End CarriesOn.

Section FailingFrame.

Variable options : Options.
Variable env : Env.
Variable tempDir : string.
Variable host : Host.

(** [Q] holds the paths that may change. *)
Variable Q : string -> bool.
Hypothesis Q_scratch : forall p, Q p = false -> under tempDir p = false.

Abbreviation F := (sameFilesExcept Q).

Lemma carriesOn_emit e : carriesOn F (emit e).
Proof. by intros w p Hp. Qed.

Lemma carriesOn_setStrategy s : carriesOn F (setStrategy s).
Proof. by intros w p Hp. Qed.

Lemma carriesOn_userSaves q c : Q q = true -> carriesOn F (userSaves q c).
Proof. intros Hq w p Hp. cbn. apply lookup_insert_ne. congruence. Qed.

Lemma frame_damaged q r w : Q q = true -> F w (Failing.damaged q r w).
Proof.
  intros Hq p Hp. unfold Failing.damaged. destruct (partial r); [|done].
  cbn. apply lookup_insert_ne. congruence.
Qed.

Lemma carriesOn_writeFileSync q c :
  Q q = true -> carriesOn F (Failing.writeFileSync host q c).
Proof.
  intros Hq w. unfold Failing.writeFileSync.
  destruct (refuses host w (fsWrite q)); [by apply frame_damaged|].
  destruct (directory host q); [apply sameFilesExcept_refl|].
  intros p Hp. cbn. apply lookup_insert_ne. congruence.
Qed.

Lemma carriesOn_copyFileSync src q :
  Q q = true -> carriesOn F (Failing.copyFileSync host src q).
Proof.
  intros Hq w. unfold Failing.copyFileSync.
  destruct (refuses host w (fsCopy src q)); [by apply frame_damaged|].
  destruct (directory host src || directory host q);
    [apply sameFilesExcept_refl|].
  destruct (files w !! src); [|apply sameFilesExcept_refl].
  intros p Hp. cbn. apply lookup_insert_ne. congruence.
Qed.

Lemma carriesOn_cleanup : carriesOn F (Failing.cleanup tempDir host).
Proof.
  intros w. unfold Failing.cleanup, Failing.rmSync.
  destruct (refuses host w (fsRemove tempDir)); intros p Hp; cbn.
  - apply lookup_partly_removed, Q_scratch, Hp.
  - by rewrite lookup_rmSync, (Q_scratch p Hp).
Qed.

Lemma Q_scratch_file : Q (tempFilePath tempDir) = true.
Proof.
  destruct (Q (tempFilePath tempDir)) eqn:E; [done|].
  apply Q_scratch in E.
  pose proof (under_below tempDir "manual_merge.mdc") as U.
  change (under tempDir (tempFilePath tempDir) = true) in U. congruence.
Qed.

Hypothesis Q_dest : Q (dest options) = true.

(** Breaks a goal [carriesOn F m] along the structure of [m]. *)
Ltac carry :=
  first
    [ apply (carriesOn_bind F (sameFilesExcept_trans Q)); [|intros ?]
    | apply (carriesOn_try_catch F (sameFilesExcept_trans Q)); [|intros ?]
    | apply carriesOn_emit
    | apply carriesOn_setStrategy
    | apply carriesOn_writeFileSync; first [apply Q_dest | apply Q_scratch_file]
    | apply carriesOn_userSaves; apply Q_scratch_file
    | apply carriesOn_cleanup
    | apply (carriesOn_ret F (sameFilesExcept_refl Q))
    | apply (carriesOn_call F (sameFilesExcept_refl Q))
    | apply (carriesOn_getStrategy F (sameFilesExcept_refl Q))
    | apply (carriesOn_existsSync F (sameFilesExcept_refl Q))
    | apply (carriesOn_attempt F (sameFilesExcept_refl Q))
    | apply (carriesOn_readFileSync F (sameFilesExcept_refl Q))
    | match goal with
      | |- carriesOn _ (if ?b then _ else _) => destruct b
      | |- carriesOn _ (match ?x with _ => _ end) => destruct x
      end ].

Lemma carriesOn_processSelection a remoteContent localContent :
  carriesOn F
    (Failing.processSelection options env tempDir host a remoteContent localContent).
Proof. unfold Failing.processSelection, Failing.editManually. repeat carry. Qed.

Lemma carriesOn_mergeByStrategy remoteContent localContent :
  carriesOn F
    (Failing.mergeByStrategy options env tempDir host remoteContent localContent).
Proof.
  unfold Failing.mergeByStrategy, Failing.smartMerge, Failing.manualMerge.
  repeat first [apply carriesOn_processSelection | carry].
Qed.

(** The merge never ends the process, and changes files at the destination
    and in the scratch directory only. *)
Lemma carriesOn_handleScenarios remoteContent localFileExists localContent :
  carriesOn F
    (Failing.handleScenarios options env tempDir host remoteContent
       localFileExists localContent).
Proof.
  unfold Failing.handleScenarios.
  repeat first [apply carriesOn_mergeByStrategy | carry].
Qed.

Hypothesis Q_backup : backup options = true -> Q (backupPath options env) = true.

Lemma carriesOn_backupLocal :
  carriesOn F (Failing.backupLocal options env host).
Proof.
  unfold Failing.backupLocal.
  repeat first [apply carriesOn_copyFileSync; auto | carry].
Qed.

(** What [pull] does once the remote file is there. *)
Lemma carriesOn_installing remoteContent :
  carriesOn F
    (Failing.attempt host (fsRead (Failing.remoteFilePath options tempDir));;
     (if destDirExists env then ret tt
      else
        Failing.attempt host (fsMkdirOf (dest options));;
        emit (spinnerInfo CreatedDirectory));;
     l <- Failing.backupLocal options env host;;
     Failing.handleScenarios options env tempDir host remoteContent l.1 l.2).
Proof.
  repeat first [apply carriesOn_backupLocal | apply carriesOn_handleScenarios
               | carry].
Qed.

End FailingFrame.

(** *** The whole run *)

(** Follows the script one step further in a goal [wp m N T E w]. *)
Ltac wp_step :=
  cbv beta; cbn [files log strategy fst snd negb orb];
  lazymatch goal with
  | |- wp (bind _ _) _ _ _ _ => apply wp_bind
  | |- wp (try_catch _ _) _ _ _ _ => apply wp_try_catch
  | |- wp (try_finally _ _) _ _ _ _ => apply wp_try_finally
  | |- wp (ret _) _ _ _ _ => apply wp_ret
  | |- wp (exit _) _ _ _ _ => apply wp_exit
  | |- wp (emit _) _ _ _ _ => apply wp_emit
  | |- wp getStrategy _ _ _ _ => apply wp_getStrategy
  | |- wp (call _) _ _ _ _ => apply wp_call; intros ? ?
  | |- wp (Failing.attempt _ _) _ _ _ _ =>
      apply wp_attempt; [intros ? ? | intros ?]
  | |- wp (Failing.rmSync _ _) _ _ _ _ =>
      apply wp_rmSync; [intros ? ? | intros ?]
  | |- wp (Failing.existsSync _ _) _ _ _ _ => apply wp_existsSync
  | |- wp (Failing.readFileSync _ _) _ _ _ _ =>
      apply wp_readFileSync; [intros ? ? | intros ? ? ? | intros ? ? ? ?]
  | |- wp (Failing.writeFileSync _ _ _) _ _ _ _ =>
      apply wp_writeFileSync; [intros ? ? | intros ? ? ? | intros ? ?]
  | |- wp (Failing.copyFileSync _ _ _) _ _ _ _ =>
      apply wp_copyFileSync; [intros ? ? | intros ? ? | intros ? ? ? ? ?]
  | |- wp (Failing.cleanup _ _) _ _ _ _ => unfold Failing.cleanup
  | |- wp (reportError _ _) _ _ _ _ => unfold reportError
  | |- wp validateStrategy _ _ _ _ => unfold validateStrategy
  | |- wp (Failing.mainCatch _ _ _ _) _ _ _ _ => unfold Failing.mainCatch
  | |- wp (Failing.main _ _ _ _) _ _ _ _ => unfold Failing.main
  | |- wp (Failing.tryMain _ _ _ _) _ _ _ _ => unfold Failing.tryMain
  | |- wp (Failing.script _ _ _ _) _ _ _ _ => unfold Failing.script
  | |- wp (if ?b then _ else _) _ _ _ _ => destruct b eqn:?
  | |- wp (match ?x with _ => _ end) _ _ _ _ => destruct x eqn:?
  end.

Section FailingRun.

Variable options : Options.
Variable env : Env.
Variable tempDir : string.
Variable host : Host.

(** A run that does not get to the remote file: it does not end normally and
    leaves everything as it was, but for the scratch directory. *)
Lemma failing_run_not_fetched fs :
  fetches options env = false ->
  wp (Failing.script options env tempDir host)
    (fun _ _ => False)
    (fun _ => untouched tempDir fs)
    (fun _ => untouched tempDir fs)
    {| files := fs; log := []; strategy := mergeStrategy options |}.
Proof.
  intros H. unfold fetches in H.
  repeat wp_step.
  all: try (unfold Failing.pull; repeat wp_step).
  all: cbv beta; cbn [files log strategy].
  all: try (exfalso;
            repeat match goal with
                   | E : negb _ = false |- _ => apply negb_false_iff in E
                   end;
            revert H;
            repeat match goal with
                   | E : _ = _ |- _ => rewrite E
                   end;
            cbn; discriminate).
  all: try (split; [cbn [app]; by repeat constructor
                   | intros p Hp; cbn [files];
                     by rewrite ?lookup_rmSync, ?lookup_partly_removed, ?Hp]).
Qed.

End FailingRun.

(** What [pull] may do: return, raise, or end the process with status 1. *)
Lemma wp_pull options env tempDir host (N : unit -> World -> Prop) T E w :
  (forall w', N tt w') -> (forall e w', T e w') -> (forall w', E 1%Z w') ->
  wp (Failing.pull options env tempDir host) N T E w.
Proof.
  intros HN HT HE. unfold Failing.pull.
  repeat lazymatch goal with
         | |- wp (bind (Failing.attempt _ _) _) _ _ _ _ => fail
         | _ => wp_step
         end; auto.
  apply (wp_carriesOn _ _ _ (sameFilesExcept (fun _ => true))).
  - by apply carriesOn_installing.
  - intros []. auto.
  - auto.
Qed.

(** *** When nothing fails *)

Section Agree.

Lemma agree_refl {A} (m : M A) : agree m m.
Proof. by intros w. Qed.

Lemma agree_bind {A B} (m m' : M A) (k k' : A -> M B) :
  agree m m' -> (forall a, agree (k a) (k' a)) -> agree (bind m k) (bind m' k').
Proof.
  intros Hm Hk w. unfold bind. rewrite Hm.
  destruct (m' w) as [[a|e|c] w1]; [apply Hk|done|done].
Qed.

(** A step that does nothing can be left out. *)
Lemma agree_skip {A} (m : M unit) (k k' : M A) :
  (forall w, m w = (Ok tt, w)) -> agree k k' -> agree (m;; k) k'.
Proof. intros Hm Hk w. unfold bind. rewrite Hm. apply Hk. Qed.

Lemma agree_try_catch {A} (m m' : M A) (h h' : string -> M A) :
  agree m m' -> (forall e, agree (h e) (h' e)) ->
  agree (try_catch m h) (try_catch m' h').
Proof.
  intros Hm Hh w. unfold try_catch. rewrite Hm.
  destruct (m' w) as [[a|e|c] w1]; [done|apply Hh|done].
Qed.

Lemma agree_try_finally {A} (m m' : M A) (f f' : M unit) :
  agree m m' -> agree f f' -> agree (try_finally m f) (try_finally m' f').
Proof.
  intros Hm Hf w. unfold try_finally. rewrite Hm.
  destruct (m' w) as [[a|e|c] w1]; [| |done]; by rewrite Hf.
Qed.

End Agree.

Section NothingFails.

Variable options : Options.
Variable env : Env.
Variable tempDir : string.
Variable host : Host.
Hypothesis answers : answersAll options env tempDir host.

Lemma attempt_answered c w : Failing.attempt host c w = (Ok tt, w).
Proof. unfold Failing.attempt. by rewrite (proj1 answers). Qed.

Lemma agree_existsSync :
  agree (Failing.existsSync host (dest options)) (existsSync (dest options)).
Proof.
  intros w. unfold Failing.existsSync, existsSync.
  destruct answers as [_ [-> _]]. done.
Qed.

Lemma agree_readFileSync p :
  directory host p = false -> agree (Failing.readFileSync host p) (readFileSync p).
Proof.
  intros Hp w. unfold Failing.readFileSync, readFileSync.
  by rewrite (proj1 answers), Hp.
Qed.

Lemma agree_writeFileSync p c :
  directory host p = false ->
  agree (Failing.writeFileSync host p c) (writeFileSync p c).
Proof.
  intros Hp w. unfold Failing.writeFileSync, writeFileSync.
  by rewrite (proj1 answers), Hp.
Qed.

Lemma agree_copyFileSync src dst :
  directory host src = false -> directory host dst = false ->
  agree (Failing.copyFileSync host src dst) (copyFileSync src dst).
Proof.
  intros Hs Hd w. unfold Failing.copyFileSync, copyFileSync.
  by rewrite (proj1 answers), Hs, Hd.
Qed.

Lemma agree_rmSync dir : agree (Failing.rmSync host dir) (rmSync dir).
Proof. intros w. unfold Failing.rmSync, rmSync. by rewrite (proj1 answers). Qed.

Lemma dest_is_file : directory host (dest options) = false.
Proof. apply answers. Qed.

Lemma backup_is_file : directory host (backupPath options env) = false.
Proof. apply answers. Qed.

Lemma scratch_is_file : directory host (tempFilePath tempDir) = false.
Proof. apply answers. Qed.

(** Breaks a goal [agree m m'] along the common structure of the two. *)
Ltac agree_step :=
  first
    [ apply agree_skip; [apply attempt_answered|]
    | apply agree_bind; [|intros ?]
    | apply agree_try_catch; [|intros ?]
    | apply agree_try_finally
    | apply agree_existsSync
    | apply agree_readFileSync; first [apply dest_is_file | apply scratch_is_file]
    | apply agree_writeFileSync; first [apply dest_is_file | apply scratch_is_file]
    | apply agree_copyFileSync; [apply dest_is_file | apply backup_is_file]
    | apply agree_rmSync
    | apply agree_refl
    | match goal with
      | |- agree (if ?b then _ else _) (if ?b then _ else _) => destruct b
      | |- agree (match ?x with _ => _ end) (match ?x with _ => _ end) =>
          destruct x
      end ].

Lemma agree_processSelection a remoteContent localContent :
  agree (Failing.processSelection options env tempDir host a remoteContent
           localContent)
        (processSelection options env tempDir a remoteContent localContent).
Proof.
  unfold Failing.processSelection, processSelection,
    Failing.editManually, editManually.
  repeat agree_step.
Qed.

Lemma agree_mergeByStrategy remoteContent localContent :
  agree (Failing.mergeByStrategy options env tempDir host remoteContent
           localContent)
        (mergeByStrategy options env tempDir remoteContent localContent).
Proof.
  unfold Failing.mergeByStrategy, mergeByStrategy, Failing.smartMerge,
    smartMerge, Failing.manualMerge, manualMerge.
  repeat first [apply agree_processSelection | agree_step].
Qed.

Lemma agree_handleScenarios remoteContent localFileExists localContent :
  agree (Failing.handleScenarios options env tempDir host remoteContent
           localFileExists localContent)
        (handleScenarios options env tempDir remoteContent localFileExists
           localContent).
Proof.
  unfold Failing.handleScenarios, handleScenarios, Failing.cleanup, cleanup.
  repeat first [apply agree_mergeByStrategy | agree_step].
Qed.

Lemma agree_script :
  agree (Failing.script options env tempDir host) (script options env tempDir).
Proof.
  unfold Failing.script, script, Failing.mainCatch, mainCatch, Failing.main,
    main, Failing.tryMain, tryMain, Failing.pull, pull,
    Failing.backupLocal, backupLocal, Failing.cleanup, cleanup.
  repeat first [apply agree_handleScenarios | agree_step].
Qed.

(** On a machine that answers every call, the script runs as in the model
    without failures. *)
Lemma run_without_failures fs :
  Failing.run options env tempDir host fs = run options env tempDir fs.
Proof. apply agree_script. Qed.

End NothingFails.

Lemma lookup_damaged q r w p :
  p <> q -> files (Failing.damaged q r w) !! p = files w !! p.
Proof.
  intros Hp. unfold Failing.damaged. destruct (partial r); [|done].
  cbn. by apply lookup_insert_ne.
Qed.

(** Follows a path through what the script did to the files. *)
Ltac lookups Hu Ho Hbp :=
  repeat first
    [ rewrite lookup_rmSync
    | rewrite lookup_partly_removed by assumption
    | rewrite Hu
    | rewrite Ho
    | rewrite lookup_damaged by auto
    | match goal with
      | HF : sameFilesExcept _ _ _ |- _ => rewrite (HF _ Hbp)
      end
    | rewrite lookup_insert_eq
    | progress cbn [files] ];
  done.

Section FailingProperties.

Variable options : Options.
Variable env : Env.
Variable tempDir : string.
Variable host : Host.

Lemma backupPath_outside :
  under tempDir (backupPath options env) = false ->
  mergePaths options tempDir (backupPath options env) = false.
Proof.
  intros Ho. unfold mergePaths. rewrite Ho, orb_false_r.
  apply String.eqb_neq, backupPath_neq.
Qed.

(** Every way a run can end: normally, with status 1, or with the exception
    of a refused removal or creation of the scratch directory. *)
Lemma failing_run_ends fs :
  wp (Failing.script options env tempDir host)
    (fun _ _ => True)
    (fun e _ => scratchRefused tempDir host e)
    (fun c _ => c = 1%Z)
    {| files := fs; log := []; strategy := mergeStrategy options |}.
Proof.
  repeat wp_step.
  all: try (apply wp_pull; intros; repeat wp_step).
  all: try done.
  all: eexists _, _, _; (split; [|split; [eassumption | reflexivity]]); auto.
Qed.

(** X1.  Whatever call is refused, a run ends normally or ends the
    process with status 1; the one exception that is caught by nobody is that
    of a refused removal or creation of the scratch directory.  A run ends
    normally only if the checks pass, git succeeds and the remote file is
    there, and then it does when no call is refused. *)
Theorem run_outcome_whatever_fails fs :
  ((Failing.run options env tempDir host fs).1 = Ok tt
   \/ (Failing.run options env tempDir host fs).1 = Exited 1
   \/ exists e, (Failing.run options env tempDir host fs).1 = Thrown e
                /\ scratchRefused tempDir host e)
  /\ ((Failing.run options env tempDir host fs).1 = Ok tt ->
      fetches options env = true)
  /\ (fetches options env = true -> answersAll options env tempDir host ->
      (Failing.run options env tempDir host fs).1 = Ok tt).
Proof.
  repeat match goal with |- _ /\ _ => split end.
  - pose proof (failing_run_ends fs) as H. unfold wp in H. unfold Failing.run.
    destruct (Failing.script options env tempDir host _) as [[[]|e|c] w'];
      cbn [fst]; [by left | right; right; eauto | right; left; by subst].
  - intros Hok. destruct (fetches options env) eqn:E; [done|].
    pose proof (failing_run_not_fetched options env tempDir host fs E) as H.
    unfold wp in H. unfold Failing.run in Hok.
    destruct (Failing.script options env tempDir host _) as [[[]|e|c] w'];
      [done | discriminate Hok | discriminate Hok].
  - intros Hf Ha. rewrite run_without_failures by done. by apply run_fetched.
Qed.

(** X2.  A run that stops before the remote file is read, at a check, at git
    or because the file is missing, does not end normally, has written and
    copied nothing and leaves every file outside the scratch directory as it
    was, whatever call is refused. *)
Theorem early_failure_changes_nothing fs :
  fetches options env = false ->
  (Failing.run options env tempDir host fs).1 <> Ok tt
  /\ Forall writesNothing (log (Failing.run options env tempDir host fs).2)
  /\ (forall p, under tempDir p = false ->
        files (Failing.run options env tempDir host fs).2 !! p = fs !! p).
Proof.
  intros E.
  pose proof (failing_run_not_fetched options env tempDir host fs E) as H.
  unfold wp in H. unfold Failing.run.
  destruct (Failing.script options env tempDir host _) as [[[]|e|c] w'];
    [done | |]; destruct H as [Hl Hf]; by repeat split.
Qed.

(** X5.  With backups on, the text of the local file is never lost,
    whatever fails: at the end of every run the destination still holds it
    or the backup of the run does, and after a run that ends normally the
    backup does. *)
Theorem local_text_never_lost fs localContent :
  backup options = true ->
  fs !! dest options = Some localContent ->
  under tempDir (dest options) = false ->
  under tempDir (backupPath options env) = false ->
  keptLocal options env localContent (Failing.run options env tempDir host fs).2
  /\ ((Failing.run options env tempDir host fs).1 = Ok tt ->
      files (Failing.run options env tempDir host fs).2 !! backupPath options env
      = Some localContent).
Proof.
  intros Hb Hl Hu Ho.
  pose proof (backupPath_neq options env) as Hne.
  pose proof (backupPath_outside Ho) as Hbp.
  assert (wp (Failing.script options env tempDir host)
            (fun _ w => files w !! backupPath options env = Some localContent)
            (fun _ => keptLocal options env localContent)
            (fun _ => keptLocal options env localContent)
            {| files := fs; log := []; strategy := mergeStrategy options |})
    as H.
  { repeat wp_step.
    all: try (unfold Failing.pull, Failing.backupLocal; rewrite ?Hb;
              repeat wp_step).
    all: try (eapply (wp_carriesOn _ _ _
                        (sameFilesExcept (mergePaths options tempDir)));
              [ apply carriesOn_handleScenarios;
                [apply mergePaths_under | apply mergePaths_dest]
              | intros [] w' HF; repeat wp_step
              | intros e w' HF; repeat wp_step ]).
    all: cbv beta; cbn [files log strategy] in *.
    all: repeat match goal with
                | H : filter _ _ !! dest options = Some _ |- _ =>
                    rewrite lookup_rmSync, Hu, Hl in H; injection H as <-
                end.
    all: try match goal with
             | H : _ || bool_decide _ = false |- _ =>
                 exfalso; revert H;
                 rewrite lookup_rmSync, Hu, Hl, bool_decide_eq_true_2,
                   orb_true_r by eauto; discriminate
             end.
    all: unfold keptLocal; cbn [files].
    all: solve [ left; lookups Hu Ho Hbp | right; lookups Hu Ho Hbp
               | lookups Hu Ho Hbp ]. }
  unfold wp in H. unfold Failing.run.
  destruct (Failing.script options env tempDir host _) as [[[]|e|c] w'];
    cbn [fst snd]; (split; [|done]); first [exact H | by right].
Qed.

(** X7.  The first pull, with no local file.  If the run ends normally, the
    remote text is in the destination as it is, whatever the strategy:
    nothing was backed up, the package was not called and the user was not
    asked; and the run does end normally when no call is refused.  If there
    is a directory at the destination, the run does not end normally and
    writes nothing. *)
Theorem first_pull_installs_or_fails fs remoteContent :
  Fetched options env remoteContent ->
  recognized (mergeStrategy options) = true ->
  fs !! dest options = None ->
  under tempDir (dest options) = false ->
  ((Failing.run options env tempDir host fs).1 = Ok tt ->
   files (Failing.run options env tempDir host fs).2 !! dest options
   = Some remoteContent
   /\ log (Failing.run options env tempDir host fs).2
      = [execGitClone; execGitCheckout]
        ++ (if destDirExists env then [] else [spinnerInfo CreatedDirectory])
        ++ [writeFile (dest options) remoteContent;
            spinnerSucceed CreatedNew;
            spinnerSucceed Pulled])
  /\ (answersAll options env tempDir host ->
      (Failing.run options env tempDir host fs).1 = Ok tt)
  /\ (directory host (dest options) = true ->
      (Failing.run options env tempDir host fs).1 <> Ok tt
      /\ Forall writesNothing (log (Failing.run options env tempDir host fs).2)
      /\ files (Failing.run options env tempDir host fs).2 !! dest options = None).
Proof.
  intros Hf Hr Hl Hu.
  assert (directory host (dest options) = true ->
          (Failing.run options env tempDir host fs).1 <> Ok tt
          /\ Forall writesNothing
               (log (Failing.run options env tempDir host fs).2)
          /\ files (Failing.run options env tempDir host fs).2 !! dest options
             = None) as Hdir.
  { intros Hd.
    assert (wp (Failing.script options env tempDir host)
              (fun _ _ => False)
              (fun _ w => Forall writesNothing (log w)
                          /\ files w !! dest options = None)
              (fun _ w => Forall writesNothing (log w)
                          /\ files w !! dest options = None)
              {| files := fs; log := []; strategy := mergeStrategy options |})
      as H.
    { unfold Failing.script, Failing.mainCatch, Failing.main, Failing.tryMain,
        Failing.pull, Failing.backupLocal, Failing.handleScenarios.
      repeat first
        [ progress (cbv beta; cbn [files log strategy fst snd negb orb])
        | rewrite Hd
        | wp_step ].
      all: try congruence.
      all: cbn [app]; try (split; [by repeat constructor|]).
      all: by rewrite ?lookup_rmSync, ?lookup_partly_removed, ?Hu. }
    unfold wp in H. unfold Failing.run.
    destruct (Failing.script options env tempDir host _) as [[[]|e|c] w'];
      cbn [fst snd]; [done | |]; destruct H as [H1 H2]; by repeat split. }
  repeat match goal with |- _ /\ _ => split end.
  - destruct (directory host (dest options)) eqn:Hd;
      [intros Hok; by destruct (Hdir eq_refl) as [Hno _]|].
    assert (wp (Failing.script options env tempDir host)
              (fun _ w =>
                 files w !! dest options = Some remoteContent
                 /\ log w
                    = [execGitClone; execGitCheckout]
                      ++ (if destDirExists env then []
                          else [spinnerInfo CreatedDirectory])
                      ++ [writeFile (dest options) remoteContent;
                          spinnerSucceed CreatedNew;
                          spinnerSucceed Pulled])
              (fun _ _ => True) (fun _ _ => True)
              {| files := fs; log := []; strategy := mergeStrategy options |})
      as H.
    { destruct Hf as [Hn Ht Hc Hk Hm].
      unfold Failing.script, Failing.mainCatch, Failing.main, Failing.tryMain,
        Failing.pull, Failing.backupLocal, Failing.handleScenarios.
      rewrite Hm.
      repeat first
        [ progress (cbv beta; cbn [files log strategy fst snd negb orb])
        | rewrite Hd
        | rewrite lookup_rmSync, Hu, Hl
        | rewrite bool_decide_eq_false_2 by (by intros [? ?])
        | wp_step ].
      all: try done.
      all: cbn [app]; split; [by rewrite lookup_rmSync, Hu, lookup_insert_eq|].
      all: done. }
    unfold wp in H. unfold Failing.run.
    destruct (Failing.script options env tempDir host _) as [[[]|e|c] w'];
      cbn [fst snd]; [done | discriminate | discriminate].
  - intros Ha. rewrite run_without_failures by done.
    by rewrite (run_created options env tempDir fs remoteContent).
  - exact Hdir.
Qed.

End FailingProperties.

(** ** Concrete runs for the further properties *)

(** [run_writes_only_its_paths] on a concrete run. *)
Lemma run_writes_only_its_paths_witness :
  files (run (exampleOptions "simple")
           (exampleEnv "R" positionalMerge remote noEdit)
           exampleTempDir (<["README.md" := "readme"]> (exampleFiles "L"))).2
    !! "README.md"
  = <["README.md" := "readme"]> (exampleFiles "L") !! "README.md".
Proof.
  refine (run_writes_only_its_paths
            (exampleOptions "simple")
            (exampleEnv "R" positionalMerge remote noEdit)
            exampleTempDir (<["README.md" := "readme"]> (exampleFiles "L"))
            "README.md" _).
  vm_compute. reflexivity.
Defined.

(** [scratch_directory_left_empty] on a concrete run. *)
Lemma scratch_directory_left_empty_witness :
  files (run (exampleOptions "smart")
           (exampleEnv "R" brokenMerge manual (fun _ => Returns "merged"))
           exampleTempDir (exampleFiles "L")).2
    !! "/project/.cursor-rules-temp/manual_merge.mdc"
  = None.
Proof.
  refine (scratch_directory_left_empty
            (exampleOptions "smart")
            (exampleEnv "R" brokenMerge manual (fun _ => Returns "merged"))
            exampleTempDir (exampleFiles "L")
            "/project/.cursor-rules-temp/manual_merge.mdc" _ _).
  - vm_compute. reflexivity.
  - vm_compute. reflexivity.
Defined.

(** [token_required_for_private] on a concrete run. *)
Lemma token_required_for_private_witness :
  run (privateOptions (Some ""))
    (exampleEnv "R" positionalMerge remote noEdit)
    exampleTempDir (exampleFiles "L")
  = (Exited 1,
     {| files := exampleFiles "L";
        log := [consoleError TokenRequired];
        strategy := "smart" |}).
Proof.
  refine (proj1
    (token_required_for_private
       (privateOptions (Some ""))
       (exampleEnv "R" positionalMerge remote noEdit)
       exampleTempDir (exampleFiles "L") _) _).
  - reflexivity.
  - repeat split; reflexivity.
Defined.

(** [forced_pull_overwrites] on a concrete run. *)
Lemma forced_pull_overwrites_witness :
  files (run (forcedOptions "smart")
           (exampleEnv "R" positionalMerge remote noEdit)
           exampleTempDir (exampleFiles "L")).2
    !! ".cursor/rules/always-follow.mdc"
  = Some "R".
Proof.
  refine (proj1 (proj2
    (forced_pull_overwrites
       (forcedOptions "smart")
       (exampleEnv "R" positionalMerge remote noEdit)
       exampleTempDir (exampleFiles "L") "R" "L" _ _ _ _ _))).
  - by constructor.
  - reflexivity.
  - vm_compute. reflexivity.
  - vm_compute. reflexivity.
  - reflexivity.
Defined.

(** [second_pull_is_up_to_date] on a concrete run. *)
Lemma second_pull_is_up_to_date_witness :
  files (run (exampleOptions "simple")
           (exampleEnv "R" positionalMerge remote noEdit)
           exampleTempDir
           (files (run (exampleOptions "simple")
                     (exampleEnv "R" positionalMerge remote noEdit)
                     exampleTempDir ∅).2)).2
    !! ".cursor/rules/always-follow.mdc"
  = Some "R".
Proof.
  refine (proj1 (proj2
    (second_pull_is_up_to_date
       (exampleOptions "simple")
       (exampleEnv "R" positionalMerge remote noEdit)
       exampleTempDir ∅ "R" _ _ _ _ _))).
  - apply exampleFetched.
  - reflexivity.
  - vm_compute. reflexivity.
  - vm_compute. reflexivity.
  - reflexivity.
Defined.

(** [simple_pull_twice_duplicates] on a concrete run. *)
Lemma simple_pull_twice_duplicates_witness :
  files (run (exampleOptions "simple")
           (exampleEnv "R" positionalMerge remote noEdit)
           exampleTempDir
           (files (run (exampleOptions "simple")
                     (exampleEnv "R" positionalMerge remote noEdit)
                     exampleTempDir (exampleFiles "L")).2)).2
    !! ".cursor/rules/always-follow.mdc"
  = Some ("R" +:+ separator +:+ "R" +:+ separator +:+ "L").
Proof.
  refine (proj2
    (simple_pull_twice_duplicates
       (exampleOptions "simple")
       (exampleEnv "R" positionalMerge remote noEdit)
       exampleTempDir (exampleFiles "L") "R" "L" _ _)).
  - apply exampleMerging. discriminate.
  - reflexivity.
Defined.

(** [unfinished_manual_merge_keeps_local] on a concrete run. *)
Lemma unfinished_manual_merge_keeps_local_witness :
  files (run (exampleOptions "smart")
           (exampleEnv "R" brokenMerge manual
              (fun _ => Raises "spawn xdg-open ENOENT"))
           exampleTempDir (exampleFiles "L")).2
    !! ".cursor/rules/always-follow.mdc"
  = Some "L".
Proof.
  refine (proj1 (proj2
    (unfinished_manual_merge_keeps_local
       (exampleOptions "smart")
       (exampleEnv "R" brokenMerge manual
          (fun _ => Raises "spawn xdg-open ENOENT"))
       exampleTempDir (exampleFiles "L") "R" "L"
       "threeWayMerge is not a function" _ _ _ _ _))).
  - apply exampleMerging. discriminate.
  - reflexivity.
  - reflexivity.
  - reflexivity.
  - exact I.
Defined.

(** [generateConflictMarkers_inj] on concrete texts. *)
Lemma generateConflictMarkers_inj_witness :
  twoChangesRemote = twoChangesRemote /\ twoChangesLocal = twoChangesLocal.
Proof.
  refine (generateConflictMarkers_inj
            twoChangesRemote twoChangesLocal twoChangesRemote twoChangesLocal
            _ _ _).
  - vm_compute. intuition discriminate.
  - vm_compute. intuition discriminate.
  - reflexivity.
Defined.

(** [dispatch_loads_pull_or_push] on a concrete command line. *)
Lemma dispatch_loads_pull_or_push_witness :
  (dispatch "/pkg" "node" ["/pkg/index.js"; "pull"; "--force"]
     (fun _ _ => Exited 1)).1
  = Some 1%Z.
Proof.
  refine (proj1
    (proj1
       (dispatch_loads_pull_or_push "/pkg" "node"
          ["/pkg/index.js"; "pull"; "--force"] (fun _ _ => Exited 1))
       "pull" _ _)).
  - reflexivity.
  - left. reflexivity.
Defined.


(** ** Concrete runs on a machine where calls fail *)

Lemma plainHost_answersAll options env tempDir :
  answersAll options env tempDir plainHost.
Proof. by repeat split. Qed.

(** A local file that cannot be written, with the simple strategy: the
    backup is made, the write raises, and the process ends with status 1,
    the backup staying behind. *)
Example read_only_destination :
  Failing.run (exampleOptions "simple")
    (exampleEnv "R" positionalMerge remote noEdit) exampleTempDir
    (readOnly ".cursor/rules/always-follow.mdc") (exampleFiles "L")
  = (Exited 1,
     {| files := {[ ".cursor/rules/always-follow.mdc" := "L";
                    ".cursor/rules/always-follow.mdc.backup.1718000000000" := "L" ]};
        log := [execGitClone; execGitCheckout;
                copyFile ".cursor/rules/always-follow.mdc"
                  ".cursor/rules/always-follow.mdc.backup.1718000000000";
                spinnerInfo
                  (CreatedBackup
                     ".cursor/rules/always-follow.mdc.backup.1718000000000");
                spinnerFail
                  (ErrorPulling
                     "EACCES: permission denied, open '.cursor/rules/always-follow.mdc'")];
        strategy := "simple" |}).
Proof. vm_compute. reflexivity. Qed.

(** A directory at the destination: [existsSync] is true of it, reading it
    raises, and the process ends with status 1. *)
Example directory_at_destination :
  Failing.run (exampleOptions "smart")
    (exampleEnv "R" positionalMerge remote noEdit) exampleTempDir
    (directoryAt ".cursor/rules/always-follow.mdc") ∅
  = (Exited 1,
     {| files := ∅;
        log := [execGitClone; execGitCheckout;
                spinnerFail
                  (ErrorPulling "EISDIR: illegal operation on a directory, read")];
        strategy := "smart" |}).
Proof. vm_compute. reflexivity. Qed.

(** [run_outcome_whatever_fails] on a concrete run. *)
Lemma run_outcome_whatever_fails_witness :
  (Failing.run (exampleOptions "smart")
     (exampleEnv "R" brokenMerge concat noEdit) exampleTempDir
     plainHost (exampleFiles "L")).1
  = Ok tt.
Proof.
  refine (proj2 (proj2
    (run_outcome_whatever_fails
       (exampleOptions "smart")
       (exampleEnv "R" brokenMerge concat noEdit)
       exampleTempDir plainHost (exampleFiles "L"))) _ _).
  - vm_compute. reflexivity.
  - apply plainHost_answersAll.
Defined.

(** [early_failure_changes_nothing] on a concrete run. *)
Lemma early_failure_changes_nothing_witness :
  files (Failing.run (exampleOptions "auto")
           (exampleEnv "R" positionalMerge remote noEdit) exampleTempDir
           (readOnly ".cursor/rules/always-follow.mdc") (exampleFiles "L")).2
    !! ".cursor/rules/always-follow.mdc"
  = exampleFiles "L" !! ".cursor/rules/always-follow.mdc".
Proof.
  refine (proj2 (proj2
    (early_failure_changes_nothing
       (exampleOptions "auto")
       (exampleEnv "R" positionalMerge remote noEdit) exampleTempDir
       (readOnly ".cursor/rules/always-follow.mdc") (exampleFiles "L") _))
    ".cursor/rules/always-follow.mdc" _).
  - vm_compute. reflexivity.
  - vm_compute. reflexivity.
Defined.

(** [local_text_never_lost] on a concrete run. *)
Lemma local_text_never_lost_witness :
  keptLocal (exampleOptions "simple")
    (exampleEnv "R" positionalMerge remote noEdit) "L"
    (Failing.run (exampleOptions "simple")
       (exampleEnv "R" positionalMerge remote noEdit) exampleTempDir
       (readOnly ".cursor/rules/always-follow.mdc") (exampleFiles "L")).2.
Proof.
  refine (proj1
    (local_text_never_lost
       (exampleOptions "simple")
       (exampleEnv "R" positionalMerge remote noEdit) exampleTempDir
       (readOnly ".cursor/rules/always-follow.mdc") (exampleFiles "L") "L"
       _ _ _ _)).
  - reflexivity.
  - vm_compute. reflexivity.
  - vm_compute. reflexivity.
  - vm_compute. reflexivity.
Defined.

(** [first_pull_installs_or_fails] on a concrete run. *)
Lemma first_pull_installs_or_fails_witness :
  (Failing.run (exampleOptions "smart")
     (exampleEnv "R" positionalMerge remote noEdit) exampleTempDir
     (directoryAt ".cursor/rules/always-follow.mdc") ∅).1
  <> Ok tt.
Proof.
  refine (proj1 (proj2 (proj2
    (first_pull_installs_or_fails
       (exampleOptions "smart")
       (exampleEnv "R" positionalMerge remote noEdit) exampleTempDir
       (directoryAt ".cursor/rules/always-follow.mdc") ∅ "R" _ _ _ _)) _)).
  - apply exampleFetched.
  - reflexivity.
  - vm_compute. reflexivity.
  - vm_compute. reflexivity.
  - vm_compute. reflexivity.
Defined.
